(** * Project-Management-Tool: the authorization rules of the REST backend

    A shallow embedding of the Express/Mongoose controllers
    ([projectController], [taskController], [userController]), of the
    permission middleware and of the [Task] / [Project] schemas, followed by
    the properties of the authorization model.

    Modelling conventions.
    - A handler [async (req, res) => ...] is a function from the document
      store and the request to the new store and the response that was sent.
      The [try { ... } catch] around every handler is the [serverError]
      response; the store is then the one before the failing call.
    - A document identifier is written as 24 hexadecimal digits.  The
      store, [x.toString()] and [req.user.id] hold the lower-case form.  The
      persistence layer casts a string to an identifier whatever the case of
      its digits ([castId]) and throws on any other string; where the source
      compares two strings with [===], so does the model ([String.eqb]).
    - The persistence layer (mongoose) is not part of the repository.  Its
      casts are the ones of the declared type of a path: a string path takes
      a number or a boolean by its [toString()], a boolean path the usual
      spellings of the two values, an array path wraps a single value, a
      date is inside the range of [Date]; [null] empties a path that may be
      empty and is refused elsewhere.  The validators are the ones the
      schemas declare.  What the database makes of an update document with
      update operators or dotted paths is a parameter ([operatorUpdate]).
      The [createdAt] / [updatedAt] stamps are left out.
    - [res.json] of a document serialises it with the options of its schema;
      a getter that throws there sends the handler to its [catch].
    - Strings are ASCII text, numbers in a request body are integers that a
      JavaScript number holds exactly. *)

From stdpp Require Import base strings list gmap pretty.
From Stdlib Require Import ZArith.

Local Open Scope string_scope.
Local Set Warnings "-register-all".

(** ** JavaScript values of a parsed JSON body *)

Inductive jsval : Type :=
| JNull
| JBool (b : bool)
| JNum (n : Z)
| JStr (s : string)
| JArr (l : list jsval)
| JObj (fields : list (string * jsval)).

(** [o[k]]: a parsed object is the list of its keys in order, a key occurs
    once; [None] is [undefined]. *)
Fixpoint get (k : string) (o : list (string * jsval)) : option jsval :=
  match o with
  | [] => None
  | (k', v) :: o' => if String.eqb k' k then Some v else get k o'
  end.

(** [arr.includes(x)] on an array of strings *)
Definition includes (arr : list string) (x : string) : bool :=
  existsb (String.eqb x) arr.

(** [arr.includes(v)] when [v] is any value: SameValueZero only matches a
    string against string elements. *)
Definition includesVal (arr : list string) (v : option jsval) : bool :=
  match v with
  | Some (JStr s) => includes arr s
  | _ => false
  end.

(** ToBoolean *)
Definition truthy (v : option jsval) : bool :=
  match v with
  | None | Some JNull => false
  | Some (JBool b) => b
  | Some (JNum n) => negb (Z.eqb n 0)
  | Some (JStr s) => negb (String.eqb s "")
  | Some (JArr _) | Some (JObj _) => true
  end.

(** [v.toString()] for a truthy [v] *)
Fixpoint toString (v : jsval) : string :=
  match v with
  | JNull => "null"
  | JBool true => "true"
  | JBool false => "false"
  | JNum n => pretty n
  | JStr s => s
  | JArr l =>
      String.concat ","
        (List.map (fun x => match x with JNull => "" | _ => toString x end) l)
  | JObj _ => "[object Object]"
  end.

(** [s.trim()], on the ASCII white space *)
Definition isSpace (c : Ascii.ascii) : bool :=
  let n := Ascii.nat_of_ascii c in
  (n =? 32)%nat || ((9 <=? n)%nat && (n <=? 13)%nat).

Fixpoint trimStart (s : string) : string :=
  match s with
  | String c s' => if isSpace c then trimStart s' else s
  | EmptyString => EmptyString
  end.

Fixpoint trimEnd (s : string) : string :=
  match s with
  | EmptyString => EmptyString
  | String c s' =>
      match trimEnd s' with
      | EmptyString => if isSpace c then EmptyString else String c EmptyString
      | r => String c r
      end
  end.

Definition trim (s : string) : string := trimEnd (trimStart s).

(** ** Documents *)

Abbreviation ObjectId := string (only parsing).

Definition isHexDigit (c : Ascii.ascii) : bool :=
  let n := Ascii.nat_of_ascii c in
  ((48 <=? n) && (n <=? 57) || (65 <=? n) && (n <=? 70)
   || (97 <=? n) && (n <=? 102))%nat.

Definition toLowerHex (c : Ascii.ascii) : Ascii.ascii :=
  let n := Ascii.nat_of_ascii c in
  if ((65 <=? n) && (n <=? 70))%nat then Ascii.ascii_of_nat (n + 32) else c.

Fixpoint allHex (s : string) : bool :=
  match s with
  | EmptyString => true
  | String c s' => isHexDigit c && allHex s'
  end.

Fixpoint toLower (s : string) : string :=
  match s with
  | EmptyString => EmptyString
  | String c s' => String (toLowerHex c) (toLower s')
  end.

(** The cast of a string to an identifier: 24 hexadecimal digits of either
    case name the identifier written in lower case, any other string is a
    cast error ([None]). *)
Definition castId (raw : string) : option ObjectId :=
  if (String.length raw =? 24)%nat && allHex raw then Some (toLower raw)
  else None.

(** models/User: the fields the controllers read and write. *)
Record User := mkUser {
  u_name : string;
  u_email : string;
  u_role : string;
  u_isActive : bool
}.

(** models/Project.js, an element of [members] *)
Record Member := mkMember {
  m_user : ObjectId;
  m_role : string;
  m_joinedAt : Z
}.

Record Settings := mkSettings {
  allowMemberTaskCreation : bool;
  allowMemberTaskAssignment : bool;
  defaultTaskPriority : string
}.

Record Project := mkProject {
  p_name : string;
  p_description : option string;
  p_owner : ObjectId;
  p_members : list Member;
  p_startDate : option Z;
  p_endDate : option Z;
  p_status : string;
  p_tags : list string;
  p_settings : Settings;
  p_isArchived : bool
}.

(** models/Task, an element of [comments] *)
Record Comment := mkComment {
  c_user : ObjectId;
  c_text : string;
  c_createdAt : Z
}.

Record Task := mkTask {
  t_title : string;
  t_description : option string;
  t_status : string;
  t_priority : string;
  t_dueDate : option Z;
  t_assignee : option ObjectId;
  t_createdBy : ObjectId;
  t_project : ObjectId;
  t_tags : list string;
  t_comments : list Comment;
  t_isArchived : bool
}.

(** The three collections. *)
Record Store := mkStore {
  users : gmap string User;
  projects : gmap string Project;
  tasks : gmap string Task
}.

Definition setUsers (s : Store) (us : gmap string User) : Store :=
  mkStore us (projects s) (tasks s).
Definition setProjects (s : Store) (ps : gmap string Project) : Store :=
  mkStore (users s) ps (tasks s).
Definition setTasks (s : Store) (ts : gmap string Task) : Store :=
  mkStore (users s) (projects s) ts.

(** ** Requests and responses *)

(** [req.user], set by the [protect] middleware *)
Record AuthUser := mkAuthUser {
  user_id : ObjectId;
  user_role : string
}.

Record Params := mkParams {
  params_id : option string;
  params_memberId : option string;
  params_projectId : option string;
  params_taskId : option string
}.

Record Request := mkRequest {
  user : AuthUser;
  method : string;
  params : Params;
  body : list (string * jsval);
  (** what [validationResult(req)] holds *)
  validationErrors : list string
}.

(** [res.status(c).json({ success, message })] *)
Record Response := mkResponse {
  status : nat;
  success : bool;
  message : option string
}.

(** What a handler reads from its surroundings: the clock, [Date] parsing,
    the identifier the driver gives the next created document, and what the
    database makes of a project under an update document that holds update
    operators or dotted paths ([None] when it refuses the update). *)
Record Env := mkEnv {
  now : Z;
  parseDate : string -> option Z;
  freshId : ObjectId;
  operatorUpdate : list (string * jsval) -> Project -> option Project
}.

Definition serverError : Response := mkResponse 500 false (Some "Server error").
Definition fail (c : nat) (msg : string) : Response := mkResponse c false (Some msg).
Definition ok (c : nat) (msg : string) : Response := mkResponse c true (Some msg).

(** A middleware either answers or calls [next()]. *)
Inductive MwResult : Type :=
| Next
| Respond (r : Response).

(** ** The persistence layer: casting and schema validators *)

(** A string path: a number or a boolean is taken by its [toString()], an
    object by its [_id] when that is a string; an array and any other
    object are cast errors. *)
Definition castString (v : jsval) : option string :=
  match v with
  | JStr s => Some s
  | JNum n => Some (pretty n)
  | JBool true => Some "true"
  | JBool false => Some "false"
  | JObj o => match get "_id" o with Some (JStr i) => Some i | _ => None end
  | JNull | JArr _ => None
  end.

Definition castObjectId (v : jsval) : option ObjectId :=
  match v with
  | JStr s => castId s
  | _ => None
  end.

Definition castBoolean (v : jsval) : option bool :=
  match v with
  | JBool b => Some b
  | JStr s =>
      if includes ["true"; "1"; "yes"] s then Some true
      else if includes ["false"; "0"; "no"] s then Some false
      else None
  | JNum n =>
      if Z.eqb n 1 then Some true else if Z.eqb n 0 then Some false else None
  | _ => None
  end.

(** A date is a number of milliseconds of at most 8.64e15 in absolute
    value. *)
Definition castDate (env : Env) (v : jsval) : option Z :=
  match v with
  | JNum n =>
      if (Z.abs n <=? 8640000000000000)%Z then Some n else None
  | JStr s => parseDate env s
  | _ => None
  end.

(** [[{ type: String, trim: true }]]; a value that is no array is cast as
    the array of that value. *)
Definition castTags (v : jsval) : option (list string) :=
  match v with
  | JArr l => mapM (fun x => trim <$> castString x) l
  | JNull => None
  | x => mapM (fun x => trim <$> castString x) [x]
  end.

(** A path that is not required: absent stays absent, [null] empties it. *)
Definition optional {A} (cast : jsval -> option A) (v : option jsval)
  : option (option A) :=
  match v with
  | None | Some JNull => Some None
  | Some x => Some <$> cast x
  end.

(** The same for a value that an update document names. *)
Definition nullable {A} (cast : jsval -> option A) (x : jsval)
  : option (option A) :=
  match x with
  | JNull => Some None
  | _ => Some <$> cast x
  end.

(** An update sets the paths it names and keeps the others. *)
Definition orKeep {A} (cast : jsval -> option A) (v : option jsval) (old : A)
  : option A :=
  match v with
  | None => Some old
  | Some x => cast x
  end.

Definition check (b : bool) : option unit := if b then Some tt else None.

Definition statusEnum : list string := ["todo"; "inprogress"; "review"; "done"].
Definition priorityEnum : list string := ["low"; "medium"; "high"].
Definition memberRoleEnum : list string := ["manager"; "member"].
Definition projectStatusEnum : list string :=
  ["planning"; "active"; "on-hold"; "completed"; "cancelled"].

(** [required], [trim], [minlength: 3], [maxlength: 100] of a title or a
    project name *)
Definition castName (v : jsval) : option string :=
  s ← castString v;
  let s' := trim s in
  _ ← check (negb (String.eqb s' "") &&
             (3 <=? String.length s')%nat && (String.length s' <=? 100)%nat);
  Some s'.

(** [trim], [maxlength: 500] *)
Definition castDescription (v : jsval) : option string :=
  s ← castString v;
  let s' := trim s in
  _ ← check (String.length s' <=? 500)%nat;
  Some s'.

Definition castEnum (values : list string) (v : jsval) : option string :=
  s ← castString v;
  _ ← check (includes values s);
  Some s.

(** An element of [members]; [role] and [joinedAt] have defaults. *)
Definition castMember (env : Env) (v : jsval) : option Member :=
  match v with
  | JObj o =>
      u ← get "user" o ≫= castObjectId;
      r ← match get "role" o with
          | None => Some "member"
          | Some x => castEnum memberRoleEnum x
          end;
      j ← match get "joinedAt" o with
          | None => Some (now env)
          | Some x => castDate env x
          end;
      Some (mkMember u r j)
  | _ => None
  end.

Definition castMembers (env : Env) (v : jsval) : option (list Member) :=
  match v with
  | JArr l => mapM (castMember env) l
  | JNull => None
  | x => mapM (castMember env) [x]
  end.

(** The nested [settings] object of an update document: it is written
    path by path, a flag it does not name keeps its value. *)
Definition castSettings (old : Settings) (v : jsval) : option Settings :=
  match v with
  | JObj o =>
      c ← orKeep castBoolean (get "allowMemberTaskCreation" o)
            (allowMemberTaskCreation old);
      a ← orKeep castBoolean (get "allowMemberTaskAssignment" o)
            (allowMemberTaskAssignment old);
      d ← orKeep (castEnum priorityEnum) (get "defaultTaskPriority" o)
            (defaultTaskPriority old);
      Some (mkSettings c a d)
  | _ => None
  end.

Definition defaultSettings : Settings := mkSettings true false "medium".

(** What [Model.findById] gives: the cast error it throws, [null], or the
    document with its [_id]. *)
Inductive Found (A : Type) : Type :=
| Thrown
| Missing
| Doc (i : ObjectId) (d : A).
Arguments Thrown {A}.
Arguments Missing {A}.
Arguments Doc {A} i d.

(** [Model.findById(raw)] for a route parameter *)
Definition findById {A} (c : gmap string A) (raw : option string) : Found A :=
  match raw with
  | None => Missing
  | Some r =>
      match castId r with
      | None => Thrown
      | Some i =>
          match c !! i with
          | None => Missing
          | Some d => Doc i d
          end
      end
  end.

(** the document that the [:id] of the route names *)
Definition routeId (req : Request) : option ObjectId :=
  params_id (params req) ≫= castId.

(** [Model.findById(v)] for a value taken from the body; a value that is
    neither a string nor absent is taken to throw. *)
Definition findByIdVal {A} (c : gmap string A) (v : option jsval) : Found A :=
  match v with
  | None | Some JNull => Missing
  | Some (JStr k) => findById c (Some k)
  | Some _ => Thrown
  end.

(** [Model.create(doc)] under the identifier the driver chose; a
    duplicate key is an error. *)
Definition insertNew {A} (c : gmap string A) (k : ObjectId) (d : A)
  : option (gmap string A) :=
  match c !! k with
  | Some _ => None
  | None => Some (<[k := d]> c)
  end.

(** [Project.create({ name, description, owner, startDate, endDate, tags,
    status })] *)
Definition Project_create (env : Env) (name description : option jsval)
    (owner : ObjectId) (startDate endDate tags : option jsval) (st : string)
  : option Project :=
  n ← name ≫= castName;
  d ← optional castDescription description;
  sd ← optional (castDate env) startDate;
  ed ← optional (castDate env) endDate;
  tg ← optional castTags tags;
  _ ← check (includes projectStatusEnum st);
  Some (mkProject n d owner [] sd ed st (default [] tg) defaultSettings false).

(** A key of an update document that is an update operator ([$set],
    [$push], ...) or a dotted path. *)
Fixpoint hasDot (k : string) : bool :=
  match k with
  | EmptyString => false
  | String c k' => String.eqb (String c "") "." || hasDot k'
  end.

Definition isOperatorKey (k : string) : bool :=
  match k with
  | String c _ => String.eqb (String c "") "$" || hasDot k
  | EmptyString => false
  end.

(** an update document of top-level paths only *)
Definition plainUpdate (updates : list (string * jsval)) : bool :=
  forallb (fun kv => negb (isOperatorKey (fst kv))) updates.

(** [Project.findByIdAndUpdate(id, updates, { runValidators: true })] on the
    stored document: the top-level paths of [updates] are set, a path the
    schema does not declare is dropped. *)
Definition Project_update (env : Env) (updates : list (string * jsval))
    (p : Project) : option Project :=
  if negb (plainUpdate updates) then operatorUpdate env updates p
  else
  n ← orKeep castName (get "name" updates) (p_name p);
  d ← orKeep (nullable castDescription)
         (get "description" updates) (p_description p);
  o ← orKeep castObjectId (get "owner" updates) (p_owner p);
  ms ← orKeep (castMembers env) (get "members" updates) (p_members p);
  sd ← orKeep (nullable (castDate env))
          (get "startDate" updates) (p_startDate p);
  ed ← orKeep (nullable (castDate env))
          (get "endDate" updates) (p_endDate p);
  st ← orKeep (castEnum projectStatusEnum) (get "status" updates) (p_status p);
  tg ← orKeep castTags (get "tags" updates) (p_tags p);
  se ← orKeep (castSettings (p_settings p)) (get "settings" updates)
          (p_settings p);
  ar ← orKeep castBoolean (get "isArchived" updates) (p_isArchived p);
  Some (mkProject n d o ms sd ed st tg se ar).

(** [Task.create({ title, description, project, priority, dueDate, assignee,
    tags, createdBy, status })] *)
Definition Task_create (env : Env) (title description project : option jsval)
    (priority : jsval) (dueDate assignee tags : option jsval)
    (createdBy : ObjectId) (st : string) : option Task :=
  ti ← title ≫= castName;
  d ← optional castDescription description;
  pr ← project ≫= castObjectId;
  pri ← castEnum priorityEnum priority;
  du ← optional (castDate env) dueDate;
  a ← optional castObjectId assignee;
  tg ← optional castTags tags;
  _ ← check (includes statusEnum st);
  Some (mkTask ti d st pri du a createdBy pr (default [] tg) [] false).

(** [Task.findByIdAndUpdate(id, updates, { runValidators: true })] on the
    stored document, for an update document of top-level paths *)
Definition Task_update (env : Env) (updates : list (string * jsval))
    (t : Task) : option Task :=
  ti ← orKeep castName (get "title" updates) (t_title t);
  d ← orKeep (nullable castDescription)
         (get "description" updates) (t_description t);
  st ← orKeep (castEnum statusEnum) (get "status" updates) (t_status t);
  pri ← orKeep (castEnum priorityEnum) (get "priority" updates) (t_priority t);
  du ← orKeep (nullable (castDate env))
          (get "dueDate" updates) (t_dueDate t);
  a ← orKeep (nullable castObjectId)
         (get "assignee" updates) (t_assignee t);
  cb ← orKeep castObjectId (get "createdBy" updates) (t_createdBy t);
  pr ← orKeep castObjectId (get "project" updates) (t_project t);
  tg ← orKeep castTags (get "tags" updates) (t_tags t);
  ar ← orKeep castBoolean (get "isArchived" updates) (t_isArchived t);
  Some (mkTask ti d st pri du a cb pr tg (t_comments t) ar).

(** [a === v] for a string [a] and a value of the body *)
Definition strictEq (a : string) (v : option jsval) : bool :=
  match v with
  | Some (JStr b) => String.eqb a b
  | _ => false
  end.

(** [a === p] for a string [a] and a route parameter *)
Definition eqParam (a : string) (p : option string) : bool :=
  match p with
  | Some b => String.eqb a b
  | None => false
  end.

(** [delete o[k]] *)
Definition deleteKey (k : string) (o : list (string * jsval))
  : list (string * jsval) :=
  List.filter (fun kv => negb (String.eqb (fst kv) k)) o.

(** [project.members.some(m => m.user.toString() === uid)] *)
Definition someMember (uid : ObjectId) (p : Project) : bool :=
  existsb (fun m => String.eqb (m_user m) uid) (p_members p).

(** [project.members.some(m => m.user.toString() === uid &&
    m.role === 'manager')] *)
Definition someManager (uid : ObjectId) (p : Project) : bool :=
  existsb (fun m => String.eqb (m_user m) uid && String.eqb (m_role m) "manager")
    (p_members p).

Definition withMembers (p : Project) (ms : list Member) : Project :=
  mkProject (p_name p) (p_description p) (p_owner p) ms (p_startDate p)
    (p_endDate p) (p_status p) (p_tags p) (p_settings p) (p_isArchived p).

(** ** controllers/projectController.js *)

Module ProjectController.

Definition createProject (env : Env) (s : Store) (req : Request)
  : Store * Response :=
  let b := body req in
  match Project_create env (get "name" b) (get "description" b)
          (user_id (user req)) (get "startDate" b) (get "endDate" b)
          (get "tags" b) "active" with
  | None => (s, serverError)
  | Some p =>
      match insertNew (projects s) (freshId env) p with
      | None => (s, serverError)
      | Some ps => (setProjects s ps, ok 201 "Project created successfully")
      end
  end.

Definition updateProject (env : Env) (s : Store) (req : Request)
  : Store * Response :=
  match findById (projects s) (params_id (params req)) with
  | Thrown => (s, serverError)
  | Missing => (s, fail 404 "Project not found")
  | Doc pid project =>
      (* only owner or admin can update *)
      if negb (String.eqb (p_owner project) (user_id (user req)))
         && negb (String.eqb (user_role (user req)) "admin")
      then (s, fail 403 "Not authorized to update this project")
      else
        let updates := deleteKey "owner" (body req) in
        match Project_update env updates project with
        | None => (s, serverError)
        | Some project' =>
            (setProjects s (<[pid := project']> (projects s)),
             ok 200 "Project updated successfully")
        end
  end.

Definition deleteProject (s : Store) (req : Request) : Store * Response :=
  match findById (projects s) (params_id (params req)) with
  | Thrown => (s, serverError)
  | Missing => (s, fail 404 "Project not found")
  | Doc pid project =>
      if negb (String.eqb (p_owner project) (user_id (user req)))
         && negb (String.eqb (user_role (user req)) "admin")
      then (s, fail 403 "Not authorized to delete this project")
      else
        (* Task.deleteMany({ project }), then project.deleteOne() *)
        let ts := filter (fun kt => t_project kt.2 ≠ pid) (tasks s) in
        (mkStore (users s) (delete pid (projects s)) ts,
         ok 200 "Project deleted successfully")
  end.

Definition addMember (env : Env) (s : Store) (req : Request)
  : Store * Response :=
  let userId := get "userId" (body req) in
  let role := default (JStr "member") (get "role" (body req)) in
  match findById (projects s) (params_id (params req)) with
  | Thrown => (s, serverError)
  | Missing => (s, fail 404 "Project not found")
  | Doc pid project =>
      if negb (String.eqb (p_owner project) (user_id (user req)))
         && negb (String.eqb (user_role (user req)) "admin")
      then (s, fail 403 "Not authorized to add members")
      else
        match findByIdVal (users s) userId with
        | Thrown => (s, serverError)
        | Missing => (s, fail 404 "User not found")
        | Doc _ _ =>
            let isAlreadyMember :=
              existsb (fun m => strictEq (m_user m) userId) (p_members project)
              || strictEq (p_owner project) userId in
            if isAlreadyMember
            then (s, fail 400 "User is already a project member")
            else
              (* project.members.push({ user: userId, role }); save() *)
              match userId ≫= (fun u => castMember env (JObj [("user", u); ("role", role)])) with
              | None => (s, serverError)
              | Some m =>
                  let project' := withMembers project (p_members project ++ [m])%list in
                  (setProjects s (<[pid := project']> (projects s)),
                   ok 200 "Member added successfully")
              end
        end
  end.

Definition removeMember (s : Store) (req : Request) : Store * Response :=
  match findById (projects s) (params_id (params req)) with
  | Thrown => (s, serverError)
  | Missing => (s, fail 404 "Project not found")
  | Doc pid project =>
      if negb (String.eqb (p_owner project) (user_id (user req)))
         && negb (String.eqb (user_role (user req)) "admin")
      then (s, fail 403 "Not authorized to remove members")
      else if eqParam (p_owner project) (params_memberId (params req))
      then (s, fail 400 "Cannot remove project owner")
      else
        let project' :=
          withMembers project
            (List.filter
               (fun m => negb (eqParam (m_user m) (params_memberId (params req))))
               (p_members project)) in
        (setProjects s (<[pid := project']> (projects s)),
         ok 200 "Member removed successfully")
  end.

End ProjectController.

(** ** models/Task: the [isOverdue] virtual *)

Definition isOverdue (env : Env) (t : Task) : bool :=
  match t_dueDate t with
  | None => false
  | Some dueDate => Z.ltb dueDate (now env) && negb (String.eqb (t_status t) "done")
  end.

Definition withStatus (t : Task) (st : string) : Task :=
  mkTask (t_title t) (t_description t) st (t_priority t) (t_dueDate t)
    (t_assignee t) (t_createdBy t) (t_project t) (t_tags t) (t_comments t)
    (t_isArchived t).

Definition withComments (t : Task) (cs : list Comment) : Task :=
  mkTask (t_title t) (t_description t) (t_status t) (t_priority t) (t_dueDate t)
    (t_assignee t) (t_createdBy t) (t_project t) (t_tags t) cs (t_isArchived t).

Definition withAssignee (t : Task) (a : option ObjectId) : Task :=
  mkTask (t_title t) (t_description t) (t_status t) (t_priority t) (t_dueDate t)
    a (t_createdBy t) (t_project t) (t_tags t) (t_comments t) (t_isArchived t).

(** [task.assignee?.toString() === uid] *)
Definition assigneeIs (t : Task) (uid : ObjectId) : bool :=
  match t_assignee t with
  | Some a => String.eqb a uid
  | None => false
  end.

(** ** models/Project.js: the [memberCount] virtual

    [this.members.length + 1]; the schema adds its virtuals to every JSON
    form of a project ([toJSON: { virtuals: true }]).  On a project that was
    loaded without its [members] the getter reads [length] of [undefined]
    and throws ([None]). *)
Definition memberCount (members : option (list Member)) : option nat :=
  ms ← members; Some (length ms + 1)%nat.

(** The JSON form of a project that [populate(path, select)] loaded with
    the fields of [select] only. *)
Definition populatedProjectJSON (select : list string) (p : Project)
  : option unit :=
  _ ← memberCount (if includes select "members" then Some (p_members p)
                    else None);
  Some tt.

(** The JSON form of a task whose [project] was populated with [select]; a
    reference to a missing project is populated as [null]. *)
Definition taskJSON (select : list string) (ps : gmap string Project)
    (t : Task) : option unit :=
  match ps !! t_project t with
  | None => Some tt
  | Some p => populatedProjectJSON select p
  end.

(** ** controllers/taskController.js *)

Module TaskController.

Definition createTask (env : Env) (s : Store) (req : Request)
  : Store * Response :=
  match validationErrors req with
  | _ :: _ => (s, mkResponse 400 false None)
  | [] =>
  let b := body req in
  let title := get "title" b in
  let description := get "description" b in
  let project := get "project" b in
  let priority := get "priority" b in
  let dueDate := get "dueDate" b in
  let assignee := get "assignee" b in
  let tags := get "tags" b in
  match findByIdVal (projects s) project with
  | Thrown => (s, serverError)
  | Missing => (s, fail 404 "Project not found")
  | Doc _ projectDoc =>
      let isProjectMember :=
        String.eqb (p_owner projectDoc) (user_id (user req))
        || someMember (user_id (user req)) projectDoc
        || String.eqb (user_role (user req)) "admin" in
      if negb isProjectMember
      then (s, fail 403 "Not authorized to create tasks in this project")
      else
        (* Check if assignee is project member *)
        let rejected :=
          match assignee with
          | Some a =>
              if truthy assignee then
                let isAssigneeMember :=
                  String.eqb (toString a) (p_owner projectDoc)
                  || someMember (toString a) projectDoc in
                negb isAssigneeMember
                && negb (String.eqb (user_role (user req)) "admin")
              else false
          | None => false
          end in
        if rejected
        then (s, fail 400 "Assignee must be a project member")
        else
          match Task_create env title description project
                  (if truthy priority then default JNull priority else JStr "medium")
                  dueDate assignee tags (user_id (user req)) "todo" with
          | None => (s, serverError)
          | Some task =>
              match insertNew (tasks s) (freshId env) task with
              | None => (s, serverError)
              | Some ts =>
                  (* Populate and return: [populate('project', 'name')],
                     then [res.status(201).json] of the populated task *)
                  match taskJSON ["name"] (projects s) task with
                  | None => (setTasks s ts, serverError)
                  | Some _ => (setTasks s ts, ok 201 "Task created successfully")
                  end
              end
          end
  end end.

Definition updateTask (env : Env) (s : Store) (req : Request)
  : Store * Response :=
  match findById (tasks s) (params_id (params req)) with
  | Thrown => (s, serverError)
  | Missing => (s, fail 404 "Task not found")
  | Doc tid task =>
  match projects s !! t_project task with
  | None => (s, serverError)
  | Some project =>
      let isProjectOwner := String.eqb (p_owner project) (user_id (user req)) in
      let isTaskAssignee := assigneeIs task (user_id (user req)) in
      let isAdmin := String.eqb (user_role (user req)) "admin" in
      let allowedUpdates := ["title"; "description"; "priority"; "dueDate"; "tags"] in
      let hasStatus := truthy (get "status" (body req)) in
      let hasAssignee := truthy (get "assignee" (body req)) in
      (* Only project owner, task assignee, or admin can change status *)
      if hasStatus && (negb isProjectOwner && negb isTaskAssignee && negb isAdmin)
      then (s, fail 403 "Not authorized to change task status")
      else
        let allowedUpdates :=
          if hasStatus then (allowedUpdates ++ ["status"])%list else allowedUpdates in
        (* Only project owner or admin can change assignee *)
        if hasAssignee && (negb isProjectOwner && negb isAdmin)
        then (s, fail 403 "Not authorized to change assignee")
        else
          let allowedUpdates :=
            if hasAssignee then (allowedUpdates ++ ["assignee"])%list else allowedUpdates in
          let updates :=
            List.filter (fun kv => includes allowedUpdates (fst kv)) (body req) in
          match Task_update env updates task with
          | None => (s, serverError)
          | Some task' =>
              (setTasks s (<[tid := task']> (tasks s)),
               ok 200 "Task updated successfully")
          end
  end end.

Definition deleteTask (s : Store) (req : Request) : Store * Response :=
  match findById (tasks s) (params_id (params req)) with
  | Thrown => (s, serverError)
  | Missing => (s, fail 404 "Task not found")
  | Doc tid task =>
  (* only project owner or admin can delete *)
  match projects s !! t_project task with
  | None => (s, serverError)
  | Some project =>
      if negb (String.eqb (p_owner project) (user_id (user req)))
         && negb (String.eqb (user_role (user req)) "admin")
      then (s, fail 403 "Not authorized to delete this task")
      else (setTasks s (delete tid (tasks s)), ok 200 "Task deleted successfully")
  end end.

Definition updateTaskStatus (s : Store) (req : Request) : Store * Response :=
  let status := get "status" (body req) in
  if negb (includesVal ["todo"; "inprogress"; "review"; "done"] status)
  then (s, fail 400 "Invalid status")
  else
  match findById (tasks s) (params_id (params req)) with
  | Thrown => (s, serverError)
  | Missing => (s, fail 404 "Task not found")
  | Doc tid task =>
  match projects s !! t_project task with
  | None => (s, serverError)
  | Some project =>
      let isTaskAssignee := assigneeIs task (user_id (user req)) in
      let isProjectOwner := String.eqb (p_owner project) (user_id (user req)) in
      let isAdmin := String.eqb (user_role (user req)) "admin" in
      if negb isTaskAssignee && negb isProjectOwner && negb isAdmin
      then (s, fail 403 "Not authorized to update task status")
      else
        match status ≫= castEnum statusEnum with
        | None => (s, serverError)
        | Some st =>
            (setTasks s (<[tid := withStatus task st]> (tasks s)),
             ok 200 "Task status updated successfully")
        end
  end end.

Definition addComment (env : Env) (s : Store) (req : Request)
  : Store * Response :=
  match get "text" (body req) with
  | Some (JStr text) =>
  if String.eqb (trim text) ""
  then (s, fail 400 "Comment text is required")
  else
  match findById (tasks s) (params_id (params req)) with
  | Thrown => (s, serverError)
  | Missing => (s, fail 404 "Task not found")
  | Doc tid task =>
  match projects s !! t_project task with
  | None => (s, serverError)
  | Some project =>
      let hasAccess :=
        String.eqb (p_owner project) (user_id (user req))
        || someMember (user_id (user req)) project
        || String.eqb (user_role (user req)) "admin" in
      if negb hasAccess
      then (s, fail 403 "Not authorized to comment on this task")
      else if negb (String.length (trim text) <=? 500)%nat
      then (s, serverError)
      else
        let c := mkComment (user_id (user req)) (trim text) (now env) in
        (setTasks s (<[tid := withComments task (t_comments task ++ [c])%list]> (tasks s)),
         ok 200 "Comment added successfully")
  end end
  | v =>
      (* a falsy [text] is refused, any other value has no [trim] *)
      if truthy v then (s, serverError)
      else (s, fail 400 "Comment text is required")
  end.

End TaskController.

(** ** controllers/userController.js *)

Module UserController.

Definition withRole (u : User) (r : string) : User :=
  mkUser (u_name u) (u_email u) r (u_isActive u).

Definition withActive (u : User) (a : bool) : User :=
  mkUser (u_name u) (u_email u) (u_role u) a.

Definition updateUserRole (s : Store) (req : Request) : Store * Response :=
  if negb (String.eqb (user_role (user req)) "admin")
  then (s, fail 403 "Admin access required")
  else
  let role := get "role" (body req) in
  if negb (includesVal ["admin"; "manager"; "member"] role)
  then (s, fail 400 "Invalid role")
  else
  match findById (users s) (params_id (params req)) with
  | Thrown => (s, serverError)
  | Missing => (s, fail 404 "User not found")
  | Doc uid u =>
      (* Cannot change your own role *)
      if eqParam (user_id (user req)) (params_id (params req))
      then (s, fail 400 "Cannot change your own role")
      else
        match role ≫= castString with
        | None => (s, serverError)
        | Some r =>
            (setUsers s (<[uid := withRole u r]> (users s)),
             ok 200 "User role updated successfully")
        end
  end.

Definition updateUserStatus (s : Store) (req : Request) : Store * Response :=
  if negb (String.eqb (user_role (user req)) "admin")
  then (s, fail 403 "Admin access required")
  else
  match get "isActive" (body req) with
  | Some (JBool isActive) =>
  match findById (users s) (params_id (params req)) with
  | Thrown => (s, serverError)
  | Missing => (s, fail 404 "User not found")
  | Doc uid u =>
      (* Cannot deactivate yourself *)
      if eqParam (user_id (user req)) (params_id (params req)) && negb isActive
      then (s, fail 400 "Cannot deactivate your own account")
      else
        (setUsers s (<[uid := withActive u isActive]> (users s)),
         ok 200 (if isActive then "User activated successfully"
                 else "User deactivated successfully"))
  end
  | _ => (s, fail 400 "isActive must be a boolean")
  end.

(** is [pid] a project of [ps] that [uid] owns? *)
Definition ownedBy (uid : ObjectId) (ps : gmap string Project) (pid : ObjectId)
  : bool :=
  match ps !! pid with
  | Some p => String.eqb (p_owner p) uid
  | None => false
  end.

Definition deleteUser (s : Store) (req : Request) : Store * Response :=
  if negb (String.eqb (user_role (user req)) "admin")
  then (s, fail 403 "Admin access required")
  else
  match findById (users s) (params_id (params req)) with
  | Thrown => (s, serverError)
  | Missing => (s, fail 404 "User not found")
  | Doc uid u =>
      (* Cannot delete yourself *)
      if eqParam (user_id (user req)) (params_id (params req))
      then (s, fail 400 "Cannot delete your own account")
      else
        (* the owned projects and their tasks are deleted *)
        let ts := filter (fun kt => ownedBy uid (projects s) (t_project kt.2) = false)
                    (tasks s) in
        let ps := filter (fun kp => p_owner kp.2 ≠ uid) (projects s) in
        (* $pull: { members: { user } } *)
        let ps := (fun p => withMembers p
                     (List.filter (fun m => negb (String.eqb (m_user m) uid))
                        (p_members p))) <$> ps in
        (* $unset: { assignee } *)
        let ts := (fun t => if assigneeIs t uid then withAssignee t None else t)
                    <$> ts in
        (mkStore (delete uid (users s)) ps ts, ok 200 "User deleted successfully")
  end.

End UserController.

(** ** The permission middleware *)

Module PermissionMiddleware.

(** [a || b] on an optional route parameter and a value *)
Definition paramOr (p : option string) (v : option jsval) : option jsval :=
  match p with
  | Some x => if String.eqb x "" then v else Some (JStr x)
  | None => v
  end.

(** Middleware to check if user can manage tasks in project *)
Definition canManageTasks (s : Store) (req : Request) : MwResult :=
  let projectId :=
    paramOr (params_projectId (params req)) (get "project" (body req)) in
  if negb (truthy projectId)
  then Respond (fail 400 "Project ID is required")
  else
  match findByIdVal (projects s) projectId with
  | Thrown => Respond serverError
  | Missing => Respond (fail 404 "Project not found")
  | Doc _ project =>
      let userRole := user_role (user req) in
      let isOwner := String.eqb (p_owner project) (user_id (user req)) in
      let isManager := someManager (user_id (user req)) project in
      if String.eqb userRole "admin" || isOwner then Next
      else if isManager then Next
      else if String.eqb (method req) "POST"
              && allowMemberTaskCreation (p_settings project)
              && someMember (user_id (user req)) project
      then Next
      else Respond (fail 403 "Not authorized to manage tasks in this project")
  end.

(** [req.params.taskId || req.params.id] *)
Definition taskIdOf (req : Request) : option string :=
  match params_taskId (params req) with
  | Some x => if String.eqb x "" then params_id (params req) else Some x
  | None => params_id (params req)
  end.

(** Middleware to check if user can update task status *)
Definition canUpdateTaskStatus (s : Store) (req : Request) : MwResult :=
  match taskIdOf req with
  | None => Respond (fail 400 "Task ID is required")
  | Some taskId =>
  if String.eqb taskId "" then Respond (fail 400 "Task ID is required")
  else
  match findById (tasks s) (Some taskId) with
  | Thrown => Respond serverError
  | Missing => Respond (fail 404 "Task not found")
  | Doc _ task =>
  match projects s !! t_project task with
  | None => Respond (fail 404 "Project not found")
  | Some project =>
      let userRole := user_role (user req) in
      let isTaskAssignee := assigneeIs task (user_id (user req)) in
      let isProjectOwner := String.eqb (p_owner project) (user_id (user req)) in
      let isProjectManager := someManager (user_id (user req)) project in
      (* Allow if user is admin, project owner, project manager, or task
         assignee *)
      if String.eqb userRole "admin" || isProjectOwner || isProjectManager
         || isTaskAssignee
      then Next
      else Respond (fail 403 "Not authorized to update task status")
  end end end.

(** Middleware to check if user can delete task *)
Definition canDeleteTask (s : Store) (req : Request) : MwResult :=
  match taskIdOf req with
  | None => Respond (fail 400 "Task ID is required")
  | Some taskId =>
  if String.eqb taskId "" then Respond (fail 400 "Task ID is required")
  else
  match findById (tasks s) (Some taskId) with
  | Thrown => Respond serverError
  | Missing => Respond (fail 404 "Task not found")
  | Doc _ task =>
  match projects s !! t_project task with
  | None => Respond (fail 404 "Project not found")
  | Some project =>
      let userRole := user_role (user req) in
      let isProjectOwner := String.eqb (p_owner project) (user_id (user req)) in
      let isTaskCreator := String.eqb (t_createdBy task) (user_id (user req)) in
      (* Only admin, project owner, or task creator can delete tasks *)
      if String.eqb userRole "admin" || isProjectOwner || isTaskCreator
      then Next
      else Respond (fail 403 "Not authorized to delete this task")
  end end end.

End PermissionMiddleware.

(** ** routes/taskRoutes.js *)

Module TaskRoutes.

(** [router.route(path).verb(mw1, ..., handler)]: the middleware run in
    order, the first that answers ends the request. *)
Fixpoint route (mws : list (Store -> Request -> MwResult))
    (handler : Store -> Request -> Store * Response)
    (s : Store) (req : Request) : Store * Response :=
  match mws with
  | [] => handler s req
  | mw :: mws' =>
      match mw s req with
      | Next => route mws' handler s req
      | Respond r => (s, r)
      end
  end.

(** [router.route('/').post(createTask)] *)
Definition post_tasks (env : Env) := route [] (TaskController.createTask env).
(** [router.route('/:id').put(updateTask).delete(deleteTask)] *)
Definition put_task (env : Env) := route [] (TaskController.updateTask env).
Definition delete_task := route [] TaskController.deleteTask.
(** [router.route('/:id/status').patch(updateTaskStatus)] *)
Definition patch_task_status := route [] TaskController.updateTaskStatus.

End TaskRoutes.

(** ** The roster invariant and a sample store *)

Definition memberUsers (p : Project) : list ObjectId := m_user <$> p_members p.

(** the owner is not on the roster and nobody is on it twice *)
Definition rosterOk (p : Project) : Prop :=
  (p_owner p ∉ memberUsers p) ∧ NoDup (memberUsers p).

Definition storeOk (s : Store) : Prop :=
  map_Forall (fun _ p => rosterOk p) (projects s).

(** the paths of a task that [updateTask] is not meant to write *)
Definition sameFixedPaths (t t' : Task) : Prop :=
  t_project t' = t_project t ∧ t_createdBy t' = t_createdBy t
  ∧ t_comments t' = t_comments t ∧ t_isArchived t' = t_isArchived t.

Module Sample.

Definition u1 : ObjectId := "64f1a2b3c4d5e6f708091a01".
Definition u2 : ObjectId := "64f1a2b3c4d5e6f708091a02".
Definition u3 : ObjectId := "64f1a2b3c4d5e6f708091a03".
Definition u4 : ObjectId := "64f1a2b3c4d5e6f708091a04".
Definition a0 : ObjectId := "64f1a2b3c4d5e6f708091a00".
Definition p1_id : ObjectId := "64f1a2b3c4d5e6f708092b01".
Definition t1_id : ObjectId := "64f1a2b3c4d5e6f708093c01".
(** the identifier the driver gives the next created document *)
Definition n1 : ObjectId := "64f1a2b3c4d5e6f708094d01".
(** an identifier no document has *)
Definition missing : ObjectId := "64f1a2b3c4d5e6f70809ffff".
(** the identifiers of [a0] and of [u2], written with upper-case digits *)
Definition a0_upper : string := "64F1A2B3C4D5E6F708091A00".
Definition u2_upper : string := "64F1A2B3C4D5E6F708091A02".

(** Project [p1] of owner [u1] with the plain member [u2] and the manager
    [u3], member task creation switched off; [u4] is a user outside the
    project, [a0] a global admin.  Task [t1] was created by [u2] and is
    assigned to the owner. *)
Definition p1 : Project :=
  mkProject "Website" None u1
    [mkMember u2 "member" 10%Z; mkMember u3 "manager" 11%Z]
    None None "active" [] (mkSettings false false "medium") false.

Definition t1 : Task :=
  mkTask "Design homepage" None "review" "high" (Some 500%Z) (Some u1)
    u2 p1_id [] [] false.

Definition store : Store :=
  mkStore
    (list_to_map
       [(u1, mkUser "Owner" "owner@example.com" "member" true);
        (u2, mkUser "Member" "member@example.com" "member" true);
        (u3, mkUser "Manager" "manager@example.com" "manager" true);
        (u4, mkUser "Other" "other@example.com" "member" true);
        (a0, mkUser "Admin User" "admin@example.com" "admin" true)])
    {[p1_id := p1]}
    {[t1_id := t1]}.

Definition env : Env := mkEnv 1000%Z (fun _ => None) n1 (fun _ _ => None).

Definition noParams : Params := mkParams None None None None.
Definition idParam (i : string) : Params := mkParams (Some i) None None None.

Definition request (uid urole verb : string) (ps : Params)
    (b : list (string * jsval)) : Request :=
  mkRequest (mkAuthUser uid urole) verb ps b [].

End Sample.

(** ** The read handlers of the controllers

    A read handler sends a response with data; it is a function to the
    response and the data, the store is not written.  The order of a result
    list ([sort({ createdAt: -1 })]) and the rounded floating-point
    percentage [progress] are outside the model. *)

(** the [stats] object of [getProject] and [getTasks] *)
Record Stats := mkStats {
  st_total : nat;
  st_todo : nat;
  st_inprogress : nat;
  st_review : nat;
  st_done : nat;
  st_overdue : nat
}.

(** [tasks.filter(t => t.status === st).length] *)
Definition countStatus (st : string) (ts : list Task) : nat :=
  length (List.filter (fun t => String.eqb (t_status t) st) ts).

Definition taskStats (env : Env) (ts : list Task) : Stats :=
  mkStats (length ts) (countStatus "todo" ts) (countStatus "inprogress" ts)
    (countStatus "review" ts) (countStatus "done" ts)
    (length (List.filter (isOverdue env) ts)).

(** [res.json({ success: true, ... })] *)
Definition okData : Response := mkResponse 200 true None.

(** [project.members.some(m => m.user._id.toString() === uid)] on a project
    whose [members.user] were populated: a reference to a missing user is
    populated as [null], and reading [_id] of it throws ([None]). *)
Fixpoint somePopulatedMember (us : gmap string User) (uid : ObjectId)
    (ms : list Member) : option bool :=
  match ms with
  | [] => Some false
  | m :: ms' =>
      match us !! m_user m with
      | None => None
      | Some _ =>
          if String.eqb (m_user m) uid then Some true
          else somePopulatedMember us uid ms'
      end
  end.

Module ProjectViews.

(** one element of the [data] of [getProjects] *)
Record ProjectWithStats := mkProjectWithStats {
  pw_id : ObjectId;
  pw_project : Project;
  pw_taskCount : nat;
  pw_completedCount : nat
}.

(** [Task.countDocuments({ project: pid })] *)
Definition taskCount (s : Store) (pid : ObjectId) : nat :=
  size (filter (fun kt => t_project kt.2 = pid) (tasks s)).

(** [Task.countDocuments({ project: pid, status: 'done' })] *)
Definition completedCount (s : Store) (pid : ObjectId) : nat :=
  size (filter (fun kt => t_project kt.2 = pid ∧ t_status kt.2 = "done") (tasks s)).

Definition getProjects (s : Store) (req : Request)
  : Response * list ProjectWithStats :=
  let userId := user_id (user req) in
  let userRole := user_role (user req) in
  let found :=
    if String.eqb userRole "admin"
    then (* Admin can see all projects *)
      projects s
    else (* Users can see projects they own or are members of *)
      filter (fun kp => p_owner kp.2 = userId ∨ someMember userId kp.2 = true)
        (projects s) in
  (okData,
   (fun kp => mkProjectWithStats kp.1 kp.2 (taskCount s kp.1) (completedCount s kp.1))
     <$> map_to_list found).

Definition getProject (env : Env) (s : Store) (req : Request)
  : Response * option (Project * Stats) :=
  match findById (projects s) (params_id (params req)) with
  | Thrown => (serverError, None)
  | Missing => (fail 404 "Project not found", None)
  | Doc pid project =>
      (* Check access, on the populated owner and members *)
      let hasAccess :=
        match users s !! p_owner project with
        | None => None
        | Some _ =>
            if String.eqb (p_owner project) (user_id (user req)) then Some true
            else
              match somePopulatedMember (users s) (user_id (user req))
                      (p_members project) with
              | None => None
              | Some true => Some true
              | Some false => Some (String.eqb (user_role (user req)) "admin")
              end
        end in
      match hasAccess with
      | None => (serverError, None)
      | Some false => (fail 403 "Not authorized to access this project", None)
      | Some true =>
          let ts := (map_to_list (filter (fun kt => t_project kt.2 = pid) (tasks s))).*2 in
          (okData, Some (project, taskStats env ts))
      end
  end.

End ProjectViews.

Module TaskViews.

(** [req.query] of [GET /api/tasks], each parameter a string when present *)
Record Query := mkQuery {
  q_project : option string;
  q_status : option string;
  q_assignee : option string;
  q_priority : option string;
  q_search : option string
}.

(** [if (x)] on a query parameter, and the filter it adds *)
Definition given (x : option string) : option string :=
  match x with
  | Some v => if String.eqb v "" then None else Some v
  | None => None
  end.

(** [query.f = x] when [x] was given *)
Definition matchesParam (x : option string) (v : option string) : bool :=
  match given x with
  | None => true
  | Some w => match v with Some v' => String.eqb v' w | None => false end
  end.

(** [$or] of the three [{ $regex: search, $options: 'i' }]; the [tags] array
    matches when one of its elements does. *)
Definition matchesSearch (re : option (string → bool)) (t : Task) : bool :=
  match re with
  | None => true
  | Some m =>
      m (t_title t)
      || match t_description t with Some d => m d | None => false end
      || existsb m (t_tags t)
  end.

(** [query.assignee = assignee]: the filter on a path of identifiers, cast
    with the query *)
Definition matchesId (x : option ObjectId) (v : option ObjectId) : bool :=
  match x with
  | None => true
  | Some w => match v with Some v' => String.eqb v' w | None => false end
  end.

(** [getTasks]; [regex] compiles a case-insensitive pattern, [None] for a
    pattern the database refuses. *)
Definition getTasks (regex : string → option (string → bool)) (env : Env)
    (s : Store) (req : Request) (q : Query)
  : Response * option (list (ObjectId * Task) * Stats) :=
  let userId := user_id (user req) in
  let userRole := user_role (user req) in
  let scope : Response + (ObjectId → bool) :=
    match given (q_project q) with
    | Some project =>
        match findById (projects s) (Some project) with
        | Thrown => inl serverError
        | Missing => inl (fail 404 "Project not found")
        | Doc pid projectDoc =>
            let hasAccess :=
              String.eqb (p_owner projectDoc) userId
              || someMember userId projectDoc
              || String.eqb userRole "admin" in
            if negb hasAccess
            then inl (fail 403 "Not authorized to access this project")
            else inr (String.eqb pid)
        end
    | None =>
        (* tasks from all accessible projects *)
        inr (fun pid =>
               match projects s !! pid with
               | Some p => String.eqb (p_owner p) userId || someMember userId p
               | None => false
               end)
    end in
  match scope with
  | inl r => (r, None)
  | inr inScope =>
      match
        match given (q_assignee q) with
        | None => Some None
        | Some a => Some <$> castId a
        end,
        match given (q_search q) with
        | None => Some None
        | Some pat => Some <$> regex pat
        end
      with
      | Some assignee, Some re =>
          let found :=
            filter (fun kt : string * Task =>
                      inScope (t_project kt.2)
                      && matchesParam (q_status q) (Some (t_status kt.2))
                      && matchesId assignee (t_assignee kt.2)
                      && matchesParam (q_priority q) (Some (t_priority kt.2))
                      && matchesSearch re kt.2 = true)
              (tasks s) in
          let ts := map_to_list found in
          (* [populate('project', 'name')], then [res.json] of the tasks *)
          if forallb (fun kt : string * Task =>
                        bool_decide (is_Some (taskJSON ["name"] (projects s) kt.2)))
               ts
          then (okData, Some (ts, taskStats env ts.*2))
          else (serverError, None)
      | _, _ => (serverError, None)
      end
  end.

Definition getTask (s : Store) (req : Request) : Response * option Task :=
  match findById (tasks s) (params_id (params req)) with
  | Thrown => (serverError, None)
  | Missing => (fail 404 "Task not found", None)
  | Doc _ task =>
  (* [task.project] was populated: [null] when the project is missing *)
  match projects s !! t_project task with
  | None => (serverError, None)
  | Some project =>
      let hasAccess :=
        String.eqb (p_owner project) (user_id (user req))
        || someMember (user_id (user req)) project
        || String.eqb (user_role (user req)) "admin" in
      if negb hasAccess
      then (fail 403 "Not authorized to access this task", None)
      else
        (* [populate('project', 'name description')], then [res.json] *)
        match taskJSON ["name"; "description"] (projects s) task with
        | None => (serverError, None)
        | Some _ => (okData, Some task)
        end
  end end.

End TaskViews.

Module UserViews.

Definition getUsers (s : Store) (req : Request)
  : Response * option (list (ObjectId * User)) :=
  if negb (String.eqb (user_role (user req)) "admin")
  then (fail 403 "Admin access required", None)
  else (okData, Some (map_to_list (users s))).

End UserViews.

(** ** The other permission middleware *)

Module PermissionChecks.


(** Middleware to check if user is project owner *)
Definition isProjectOwner (s : Store) (req : Request) : MwResult :=
  let projectId :=
    PermissionMiddleware.paramOr (params_projectId (params req))
      (PermissionMiddleware.paramOr (params_id (params req))
         (get "project" (body req))) in
  if negb (truthy projectId)
  then Respond (fail 400 "Project ID is required")
  else
  match findByIdVal (projects s) projectId with
  | Thrown => Respond serverError
  | Missing => Respond (fail 404 "Project not found")
  | Doc _ project =>
      if negb (String.eqb (p_owner project) (user_id (user req)))
      then Respond (fail 403 "Not authorized. Only project owner can perform this action")
      else Next
  end.

(** Middleware to check if user is project member *)
Definition isProjectMember (s : Store) (req : Request) : MwResult :=
  let projectId :=
    PermissionMiddleware.paramOr (params_projectId (params req))
      (PermissionMiddleware.paramOr (params_id (params req))
         (get "project" (body req))) in
  if negb (truthy projectId)
  then Respond (fail 400 "Project ID is required")
  else
  match findByIdVal (projects s) projectId with
  | Thrown => Respond serverError
  | Missing => Respond (fail 404 "Project not found")
  | Doc _ project =>
      let isOwner := String.eqb (p_owner project) (user_id (user req)) in
      let isMember := someMember (user_id (user req)) project in
      let isAdmin := String.eqb (user_role (user req)) "admin" in
      if negb isOwner && negb isMember && negb isAdmin
      then Respond (fail 403 "Not authorized. You are not a member of this project")
      else Next
  end.


End PermissionChecks.

(** ** components/KanbanBoard.jsx *)

Module KanbanBoard.

(** the [id]s of [columns] *)
Definition columns : list string := ["todo"; "inprogress"; "review"; "done"].

(** [tasks.filter((task) => task.status === columnId)]; a task of the board
    is its [_id] with its fields. *)
Definition getTasksByColumn (tasks : list (ObjectId * Task)) (columnId : string)
  : list (ObjectId * Task) :=
  List.filter (fun task => String.eqb (t_status task.2) columnId) tasks.

(** the update of the local state in [handleDragEnd] *)
Definition moveTask (taskId : ObjectId) (newStatus : string)
    (prevTasks : list (ObjectId * Task)) : list (ObjectId * Task) :=
  List.map (fun task =>
              if String.eqb task.1 taskId then (task.1, withStatus task.2 newStatus)
              else task)
    prevTasks.

(** [handleDragEnd] of the signed-in user [actor], against the backend:
    [active] is the dragged task, [over] the drop target if there is one.
    [api.put] rejects on a status outside 2xx, and the local state is then
    left as it is. *)
Definition handleDragEnd (env : Env) (s : Store) (actor : AuthUser)
    (active : ObjectId) (over : option string) (tasks : list (ObjectId * Task))
  : Store * list (ObjectId * Task) :=
  match over with
  | None => (s, tasks)
  | Some newStatus =>
      let out :=
        TaskRoutes.put_task env s
          (mkRequest actor "PUT" (mkParams (Some active) None None None)
             [("status", JStr newStatus)] []) in
      if (200 <=? status out.2)%nat && (status out.2 <? 300)%nat
      then (out.1, moveTask active newStatus tasks)
      else (out.1, tasks)
  end.

End KanbanBoard.

(** ** Further invariants of the store *)

(** every task belongs to a project of the store *)
Definition refsOk (s : Store) : Prop :=
  map_Forall (fun _ t => is_Some (projects s !! t_project t)) (tasks s).

(** every user has one of the three global roles *)
Definition rolesOk (s : Store) : Prop :=
  map_Forall (fun _ u => u_role u ∈ ["admin"; "manager"; "member"]) (users s).

Definition withTitle (t : Task) (ti : string) : Task :=
  mkTask ti (t_description t) (t_status t) (t_priority t) (t_dueDate t)
    (t_assignee t) (t_createdBy t) (t_project t) (t_tags t) (t_comments t)
    (t_isArchived t).

(** what the [Task] schema validates: the two enumerations and the length
    of the title *)
Definition taskValid (t : Task) : Prop :=
  t_status t ∈ statusEnum ∧ t_priority t ∈ priorityEnum
  ∧ (3 ≤ String.length (t_title t) ≤ 100)%nat.

Definition tasksValid (s : Store) : Prop :=
  map_Forall (fun _ t => taskValid t) (tasks s).

(** * Properties *)

(** ** Helper facts *)

Lemma includes_true (arr : list string) (x : string) :
  includes arr x = true ↔ x ∈ arr.
Proof.
  unfold includes. rewrite existsb_exists. split.
  - intros (y & Hy & Heq). apply String.eqb_eq in Heq. subst y.
    by apply list_elem_of_In.
  - intros Hx. exists x. split; [by apply list_elem_of_In | apply String.eqb_refl].
Qed.

Lemma includes_false (arr : list string) (x : string) :
  includes arr x = false ↔ x ∉ arr.
Proof.
  rewrite <- includes_true. destruct (includes arr x); split; congruence.
Qed.

Lemma someMember_true (uid : ObjectId) (p : Project) :
  someMember uid p = true ↔ uid ∈ memberUsers p.
Proof.
  unfold someMember, memberUsers. rewrite existsb_exists, list_elem_of_fmap.
  split.
  - intros (m & Hm & Heq). apply String.eqb_eq in Heq.
    exists m. split; [done | by apply list_elem_of_In].
  - intros (m & -> & Hm). exists m.
    split; [by apply list_elem_of_In | apply String.eqb_refl].
Qed.

Lemma someMember_false (uid : ObjectId) (p : Project) :
  someMember uid p = false ↔ uid ∉ memberUsers p.
Proof.
  rewrite <- someMember_true. destruct (someMember uid p); split; congruence.
Qed.

Lemma eqb_false_of_ne (a b : string) : a ≠ b → String.eqb a b = false.
Proof. intros H. by apply String.eqb_neq. Qed.

(** What a lookup that found a document says. *)
Lemma findById_Doc {A} (c : gmap string A) (raw : option string)
    (i : ObjectId) (d : A) :
  findById c raw = Doc i d ↔ raw ≫= castId = Some i ∧ c !! i = Some d.
Proof.
  unfold findById. destruct raw as [r|]; simpl; [|by split; [|intros []]].
  destruct (castId r) as [j|]; simpl; [|by split; [|intros []]].
  destruct (c !! j) as [d'|] eqn:Hj; split.
  - by intros [= <- <-].
  - intros [[= <-] Hd]. congruence.
  - done.
  - intros [[= <-] Hd]. congruence.
Qed.

Lemma findById_cases {A} (c : gmap string A) (raw : option string) :
  match findById c raw with
  | Thrown => ∃ r, raw = Some r ∧ castId r = None
  | Missing => raw = None ∨ ∃ i, raw ≫= castId = Some i ∧ c !! i = None
  | Doc i d => raw ≫= castId = Some i ∧ c !! i = Some d
  end.
Proof.
  unfold findById. destruct raw as [r|]; simpl; [|by left].
  destruct (castId r) as [j|] eqn:Hr; simpl; [|by exists r].
  destruct (c !! j) eqn:Hj; [done|]. right. by exists j.
Qed.

Lemma castId_nonempty (r : string) (i : ObjectId) :
  castId r = Some i → r ≠ "".
Proof. by intros H ->. Qed.

Lemma findByIdVal_Doc {A} (c : gmap string A) (v : option jsval)
    (i : ObjectId) (d : A) :
  findByIdVal c v = Doc i d ↔
  ∃ r, v = Some (JStr r) ∧ castId r = Some i ∧ c !! i = Some d.
Proof.
  unfold findByIdVal. destruct v as [[| | |r| |]|]; try (split; [done|by intros (? & ? & _)]).
  rewrite findById_Doc. simpl. split.
  - intros [? ?]. by exists r.
  - by intros (? & [= <-] & ? & ?).
Qed.

(** ** Overdue tasks *)

(** C9. [isOverdue] is true exactly when the task has a due date, the
    current time is strictly after it, and the status is not ['done']; so it
    is false for every task that is done and for every task without a due
    date. *)
Theorem isOverdue_spec (env : Env) (t : Task) :
  (isOverdue env t = true ↔
     ∃ d, t_dueDate t = Some d ∧ (d < now env)%Z ∧ t_status t ≠ "done")
  ∧ (t_status t = "done" → isOverdue env t = false)
  ∧ (t_dueDate t = None → isOverdue env t = false).
Proof.
  unfold isOverdue. split; [|split].
  - destruct (t_dueDate t) as [d|]; split.
    + intros H. apply andb_true_iff in H as [Hlt Hst].
      exists d. split; [done|]. split; [by apply Z.ltb_lt|].
      apply negb_true_iff, String.eqb_neq in Hst. done.
    + intros (d' & [= <-] & Hlt & Hst). apply andb_true_iff. split.
      * by apply Z.ltb_lt.
      * by apply negb_true_iff, String.eqb_neq.
    + discriminate.
    + by intros (d' & [=] & _).
  - intros ->. destruct (t_dueDate t); [|done].
    rewrite String.eqb_refl. apply andb_false_r.
  - by intros ->.
Qed.

Lemma isOverdue_spec_witness :
  isOverdue Sample.env (withStatus Sample.t1 "done") = false
  ∧ isOverdue Sample.env Sample.t1 = true.
Proof.
  split.
  - apply (proj1 (proj2 (isOverdue_spec Sample.env (withStatus Sample.t1 "done")))).
    reflexivity.
  - apply (proj1 (isOverdue_spec Sample.env Sample.t1)).
    exists 500%Z. split; [reflexivity|]. split; [simpl; lia | discriminate].
Defined.

(** ** Status validation comes first *)

(** C10. When the [status] of the body is not one of the four workflow
    states, [PATCH /api/tasks/:id/status] answers 400 "Invalid status"
    whatever the task identifier is, found or not, and the store is the one
    before the request. *)
Theorem updateTaskStatus_invalid_status (s : Store) (req : Request) :
  (∀ st, get "status" (body req) = Some (JStr st) →
         st ∉ ["todo"; "inprogress"; "review"; "done"]) →
  TaskRoutes.patch_task_status s req = (s, fail 400 "Invalid status").
Proof.
  intros Hbad. unfold TaskRoutes.patch_task_status. simpl.
  unfold TaskController.updateTaskStatus.
  assert (includesVal ["todo"; "inprogress"; "review"; "done"]
            (get "status" (body req)) = false) as ->; [|done].
  unfold includesVal.
  destruct (get "status" (body req)) as [[| | |st| |]|]; try done.
  apply includes_false. by apply Hbad.
Qed.

Lemma updateTaskStatus_invalid_status_witness :
  let req := Sample.request Sample.u4 "member" "PATCH" (Sample.idParam Sample.missing)
               [("status", JStr "archived")] in
  Sample.store.(tasks) !! Sample.missing = None
  ∧ TaskRoutes.patch_task_status Sample.store req
    = (Sample.store, fail 400 "Invalid status").
Proof.
  split; [reflexivity|].
  apply updateTaskStatus_invalid_status.
  intros st [= <-]. vm_compute. intros H.
  repeat (apply elem_of_cons in H as [H|H]; [discriminate H|]).
  by apply elem_of_nil in H.
Defined.

(** ** The owner cannot be removed from a project *)

(** C6. A [removeMember] request that names the owner of the project as the
    member to remove fails for every actor: 403 for an actor who is neither
    the owner nor an admin, 400 "Cannot remove project owner" for the owner
    and for an admin.  The store, hence the members list, is unchanged. *)
Theorem removeMember_owner_denied
    (s : Store) (req : Request) (pid : ObjectId) (P : Project) :
  findById (projects s) (params_id (params req)) = Doc pid P →
  params_memberId (params req) = Some (p_owner P) →
  ProjectController.removeMember s req
    = (s, fail 403 "Not authorized to remove members")
  ∨ ProjectController.removeMember s req
    = (s, fail 400 "Cannot remove project owner").
Proof.
  intros HP Hmem. unfold ProjectController.removeMember.
  rewrite HP, Hmem. simpl. rewrite String.eqb_refl.
  destruct (negb (String.eqb (p_owner P) (user_id (user req)))
            && negb (String.eqb (user_role (user req)) "admin")); auto.
Qed.

Lemma removeMember_owner_denied_witness :
  let req := Sample.request Sample.a0 "admin" "DELETE"
               (mkParams (Some Sample.p1_id) (Some Sample.u1) None None) [] in
  ProjectController.removeMember Sample.store req
    = (Sample.store, fail 403 "Not authorized to remove members")
  ∨ ProjectController.removeMember Sample.store req
    = (Sample.store, fail 400 "Cannot remove project owner").
Proof.
  apply (removeMember_owner_denied Sample.store _ Sample.p1_id Sample.p1);
    [vm_compute|]; reflexivity.
Defined.

(** ** Self-protection in user management *)

(** The three guards compare [req.user.id] with the route parameter as it
    is written: a request whose [:id] is the actor's identifier in that very
    spelling fails each time and the store is unchanged. *)
Lemma self_guard_same_spelling (s : Store) (req : Request) :
  params_id (params req) = Some (user_id (user req)) →
  (∃ r, UserController.updateUserRole s req = (s, r)
        ∧ success r = false ∧ (400 ≤ status r)%nat)
  ∧ (get "isActive" (body req) = Some (JBool false) →
     ∃ r, UserController.updateUserStatus s req = (s, r)
          ∧ success r = false ∧ (400 ≤ status r)%nat)
  ∧ (∃ r, UserController.deleteUser s req = (s, r)
          ∧ success r = false ∧ (400 ≤ status r)%nat).
Proof.
  intros Hself. split; [|split].
  - unfold UserController.updateUserRole. rewrite Hself. simpl.
    rewrite String.eqb_refl.
    repeat case_match; eexists; (split; [reflexivity|]); simpl; split; (done || lia).
  - intros Hbody. unfold UserController.updateUserStatus.
    rewrite Hself, Hbody. simpl. rewrite String.eqb_refl. simpl.
    repeat case_match; eexists; (split; [reflexivity|]); simpl; split; (done || lia).
  - unfold UserController.deleteUser. rewrite Hself. simpl.
    rewrite String.eqb_refl.
    repeat case_match; eexists; (split; [reflexivity|]); simpl; split; (done || lia).
Qed.

(** The three guards answer 400 when the actor is an admin, the account
    exists and the route names it in the spelling of [req.user.id]. *)
Lemma self_guard_admin (s : Store) (req : Request) (u : User) :
  user_role (user req) = "admin" →
  params_id (params req) = Some (user_id (user req)) →
  findById (users s) (params_id (params req)) = Doc (user_id (user req)) u →
  (includesVal ["admin"; "manager"; "member"] (get "role" (body req)) = true →
   UserController.updateUserRole s req = (s, fail 400 "Cannot change your own role"))
  ∧ (get "isActive" (body req) = Some (JBool false) →
     UserController.updateUserStatus s req
       = (s, fail 400 "Cannot deactivate your own account"))
  ∧ UserController.deleteUser s req = (s, fail 400 "Cannot delete your own account").
Proof.
  intros Hadmin Hself Hu. split; [|split].
  - intros Hrole. unfold UserController.updateUserRole.
    rewrite Hadmin, Hrole, Hu, Hself. simpl. by rewrite String.eqb_refl.
  - intros Hbody. unfold UserController.updateUserStatus.
    rewrite Hadmin, Hbody, Hu, Hself. simpl. by rewrite String.eqb_refl.
  - unfold UserController.deleteUser.
    rewrite Hadmin, Hu, Hself. simpl. by rewrite String.eqb_refl.
Qed.

(** C7. The admin [a0] names its own account in the route with the digits
    of the identifier in upper case.  [User.findById] casts the parameter
    and finds the account, the guards compare the two strings and do not
    match: [PUT /api/users/:id/role] changes the admin's own role,
    [PUT /api/users/:id/status] deactivates the admin's own account and
    [DELETE /api/users/:id] deletes it, each answered 200, where the rule
    asks for a failure and an unchanged store. *)
Theorem self_protection_bypassed_by_spelling :
  let req := Sample.request Sample.a0 "admin" "PUT" (Sample.idParam Sample.a0_upper)
               [("role", JStr "member"); ("isActive", JBool false)] in
  let role := UserController.updateUserRole Sample.store req in
  let active := UserController.updateUserStatus Sample.store req in
  let deleted := UserController.deleteUser Sample.store req in
  routeId req = Some (user_id (user req))
  ∧ users Sample.store !! Sample.a0
    = Some (mkUser "Admin User" "admin@example.com" "admin" true)
  ∧ role.2 = ok 200 "User role updated successfully"
  ∧ users role.1 !! Sample.a0
    = Some (mkUser "Admin User" "admin@example.com" "member" true)
  ∧ active.2 = ok 200 "User deactivated successfully"
  ∧ users active.1 !! Sample.a0
    = Some (mkUser "Admin User" "admin@example.com" "admin" false)
  ∧ deleted.2 = ok 200 "User deleted successfully"
  ∧ users deleted.1 !! Sample.a0 = None.
Proof. simpl. split_and!; vm_compute; reflexivity. Qed.

(** ** What [updateTask] may write *)

Lemma get_filter_excluded (allowed : list string) (k : string)
    (b : list (string * jsval)) :
  includes allowed k = false →
  get k (List.filter (fun kv => includes allowed (fst kv)) b) = None.
Proof.
  intros Hk. induction b as [|[k' v] b IH]; [done|]. simpl.
  destruct (includes allowed k') eqn:Hk'; [|done]. simpl.
  destruct (String.eqb k' k) eqn:Heq; [|done].
  apply String.eqb_eq in Heq. congruence.
Qed.

Lemma Task_update_fixed (env : Env) (updates : list (string * jsval))
    (t t' : Task) :
  get "createdBy" updates = None →
  get "project" updates = None →
  get "isArchived" updates = None →
  Task_update env updates t = Some t' →
  sameFixedPaths t t'.
Proof.
  intros Hc Hp Ha. unfold Task_update. rewrite Hc, Hp, Ha. simpl.
  intros H. repeat (apply bind_Some in H as (? & _ & H)). simpl in H.
  injection H as <-. by repeat split.
Qed.

(** C8. [PUT /api/tasks/:id] leaves the users, the projects and every other
    task as they are, creates and deletes no task, and on the task it names
    keeps [project], [createdBy], [comments] and [isArchived]: only [title],
    [description], [priority], [dueDate], [tags], [status] and [assignee]
    can change, whatever keys the body has. *)
Theorem updateTask_frame (env : Env) (s : Store) (req : Request) :
  let s' := (TaskRoutes.put_task env s req).1 in
  users s' = users s ∧ projects s' = projects s
  ∧ ∀ tid : ObjectId,
      match tasks s !! tid with
      | Some t =>
          ∃ t', tasks s' !! tid = Some t' ∧ sameFixedPaths t t'
                ∧ (routeId req ≠ Some tid → t' = t)
      | None => tasks s' !! tid = None
      end.
Proof.
  assert (∀ tid : ObjectId,
            match tasks s !! tid with
            | Some t => ∃ t', tasks s !! tid = Some t' ∧ sameFixedPaths t t'
                              ∧ (routeId req ≠ Some tid → t' = t)
            | None => tasks s !! tid = None
            end) as Hsame.
  { intros tid. destruct (tasks s !! tid) as [t|] eqn:Ht; [|done].
    exists t. by repeat split. }
  unfold TaskRoutes.put_task, TaskRoutes.route, TaskController.updateTask.
  destruct (findById (tasks s) (params_id (params req))) as [| |tid0 task] eqn:Hfind;
    [by auto | by auto |].
  apply findById_Doc in Hfind as [Hid Htask].
  destruct (projects s !! t_project task) as [project|]; [|by auto].
  destruct (truthy (get "status" (body req)) && _); [by auto|].
  destruct (truthy (get "assignee" (body req)) && _); [by auto|].
  match goal with
  | |- context [Task_update env (List.filter (fun kv => includes ?a (fst kv)) ?b) task] =>
      assert (includes a "createdBy" = false ∧ includes a "project" = false
              ∧ includes a "isArchived" = false) as (Hc & Hp & Ha)
        by (destruct (truthy (get "status" (body req))),
                     (truthy (get "assignee" (body req))); by repeat split);
      pose proof (fun t' =>
                    Task_update_fixed env _ task t'
                      (get_filter_excluded a _ b Hc)
                      (get_filter_excluded a _ b Hp)
                      (get_filter_excluded a _ b Ha)) as Hfix
  end.
  destruct (Task_update env _ task) as [task'|]; [|by auto].
  simpl. split; [done|]. split; [done|]. intros tid.
  destruct (decide (tid0 = tid)) as [->|Hne].
  - rewrite Htask, lookup_insert_eq. exists task'.
    split; [done|]. split; [by apply Hfix|]. unfold routeId. congruence.
  - rewrite lookup_insert_ne by done. apply Hsame.
Qed.

Example updateTask_ignores_fixed_keys :
  let req := Sample.request Sample.u1 "member" "PUT" (Sample.idParam Sample.t1_id)
               [("title", JStr "Design the homepage"); ("project", JStr Sample.missing);
                ("createdBy", JStr Sample.u4)] in
  tasks (TaskRoutes.put_task Sample.env Sample.store req).1 !! Sample.t1_id
  = Some (mkTask "Design the homepage" None "review" "high" (Some 500%Z)
            (Some Sample.u1) Sample.u2 Sample.p1_id [] [] false).
Proof. vm_compute. reflexivity. Qed.

(** ** Task creation by plain members *)

(** What the handler does: an owner, a member of any role or an admin is
    never answered 403, whatever the project settings are. *)
Lemma createTask_member_not_refused (env : Env) (s : Store) (req : Request)
    (pid : ObjectId) (P : Project) :
  findByIdVal (projects s) (get "project" (body req)) = Doc pid P →
  someMember (user_id (user req)) P = true →
  status (TaskController.createTask env s req).2 ≠ 403.
Proof.
  intros HP Hm. unfold TaskController.createTask.
  destruct (validationErrors req); [|done].
  rewrite HP, Hm, orb_true_r. simpl.
  repeat case_match; done.
Qed.

(** What the unmounted middleware would do for a plain member on POST. *)
Lemma canManageTasks_plain_member (s : Store) (req : Request)
    (pid : ObjectId) (P : Project) :
  method req = "POST" →
  params_projectId (params req) = None →
  findByIdVal (projects s) (get "project" (body req)) = Doc pid P →
  user_role (user req) ≠ "admin" →
  p_owner P ≠ user_id (user req) →
  someManager (user_id (user req)) P = false →
  someMember (user_id (user req)) P = true →
  PermissionMiddleware.canManageTasks s req
  = if allowMemberTaskCreation (p_settings P) then Next
    else Respond (fail 403 "Not authorized to manage tasks in this project").
Proof.
  intros Hm Hpp HP Hrole Hown Hmgr Hmem.
  unfold PermissionMiddleware.canManageTasks, PermissionMiddleware.paramOr.
  rewrite Hpp, HP.
  apply findByIdVal_Doc in HP as (r & -> & Hr%castId_nonempty & _).
  simpl. rewrite (eqb_false_of_ne _ _ Hr). simpl.
  rewrite (eqb_false_of_ne _ _ Hrole), (eqb_false_of_ne _ _ Hown), Hmgr, Hm, Hmem.
  simpl. by destruct (allowMemberTaskCreation (p_settings P)).
Qed.

(** C1. With [allowMemberTaskCreation] false in project [p1], the plain
    member [u2] (not the owner, not an admin) posts a task to [p1]:
    [POST /api/tasks] stores the task, where the rule asks for 403 and no
    task.  The answer is 500 and not 403: the task is stored, then the
    response fails on the JSON form of the populated project.  The
    [canManageTasks] middleware, which applies the setting, is not mounted
    on the route; on the same request it answers 403. *)
Theorem createTask_ignores_allowMemberTaskCreation :
  let req := Sample.request Sample.u2 "member" "POST" Sample.noParams
               [("title", JStr "Write report"); ("project", JStr Sample.p1_id)] in
  let out := TaskRoutes.post_tasks Sample.env Sample.store req in
  allowMemberTaskCreation (p_settings Sample.p1) = false
  ∧ p_owner Sample.p1 ≠ Sample.u2
  ∧ mkMember Sample.u2 "member" 10%Z ∈ p_members Sample.p1
  ∧ tasks Sample.store !! Sample.n1 = None
  ∧ tasks out.1 !! Sample.n1
    = Some (mkTask "Write report" None "todo" "medium" None None Sample.u2 Sample.p1_id
              [] [] false)
  ∧ out.2 = serverError
  ∧ PermissionMiddleware.canManageTasks Sample.store req
    = Respond (fail 403 "Not authorized to manage tasks in this project").
Proof.
  simpl. split; [reflexivity|]. split; [discriminate|].
  split; [apply list_elem_of_here|].
  split_and!; vm_compute; reflexivity.
Qed.

(** ** Task status changes *)

(** What the two handlers do: for an existing task with an existing project
    and a valid new status, the change is refused exactly for an actor who
    is neither the assignee, nor the project owner, nor an admin; a manager
    of the project gets no allowance. *)
Lemma updateTaskStatus_refused_iff (s : Store) (req : Request)
    (tid : ObjectId) (t : Task) (P : Project) (st : string) :
  findById (tasks s) (params_id (params req)) = Doc tid t →
  projects s !! t_project t = Some P →
  get "status" (body req) = Some (JStr st) → st ∈ statusEnum →
  (TaskController.updateTaskStatus s req
     = (s, fail 403 "Not authorized to update task status")
   ↔ assigneeIs t (user_id (user req)) = false
     ∧ p_owner P ≠ user_id (user req) ∧ user_role (user req) ≠ "admin")
  ∧ (TaskController.updateTaskStatus s req
     = (setTasks s (<[tid := withStatus t st]> (tasks s)),
        ok 200 "Task status updated successfully")
   ↔ ¬ (assigneeIs t (user_id (user req)) = false
        ∧ p_owner P ≠ user_id (user req) ∧ user_role (user req) ≠ "admin")).
Proof.
  intros Ht HP Hb Hst. unfold TaskController.updateTaskStatus.
  rewrite Hb. simpl.
  apply includes_true in Hst as Hinc. simpl in Hinc. rewrite Hinc.
  simpl. rewrite Ht, HP.
  unfold castEnum. simpl. rewrite Hinc. simpl.
  destruct (assigneeIs t (user_id (user req)));
    destruct (String.eqb_spec (p_owner P) (user_id (user req)));
    destruct (String.eqb_spec (user_role (user req)) "admin"); simpl;
    split; split; try done; try (intros (? & ? & ?); done);
    try (intros _ (? & ? & ?); done);
    try (intros H; exfalso; apply H; done).
Qed.

(** C2. In project [p1] the manager [u3] is neither the assignee of [t1]
    nor the owner nor an admin.  [PATCH /api/tasks/t1/status] and
    [PUT /api/tasks/t1] with a status both answer 403 and leave the store
    as it is, where the rule allows a project manager.  The
    [canUpdateTaskStatus] middleware, which allows the manager, is not
    mounted on the routes; on the same request it calls [next()]. *)
Theorem status_change_refused_for_project_manager :
  let req := Sample.request Sample.u3 "manager" "PATCH" (Sample.idParam Sample.t1_id)
               [("status", JStr "done")] in
  mkMember Sample.u3 "manager" 11%Z ∈ p_members Sample.p1
  ∧ TaskRoutes.patch_task_status Sample.store req
    = (Sample.store, fail 403 "Not authorized to update task status")
  ∧ TaskRoutes.put_task Sample.env Sample.store req
    = (Sample.store, fail 403 "Not authorized to change task status")
  ∧ PermissionMiddleware.canUpdateTaskStatus Sample.store req = Next.
Proof.
  simpl. split; [apply list_elem_of_further, list_elem_of_here|].
  split; [vm_compute; reflexivity|]. split; vm_compute; reflexivity.
Qed.

(** ** Task deletion *)

(** What the handler does: for an existing task with an existing project,
    the deletion goes through exactly for the project owner and for an
    admin; the creator of the task gets no allowance. *)
Lemma deleteTask_allowed_iff (s : Store) (req : Request)
    (tid : ObjectId) (t : Task) (P : Project) :
  findById (tasks s) (params_id (params req)) = Doc tid t →
  projects s !! t_project t = Some P →
  (TaskController.deleteTask s req
     = (setTasks s (delete tid (tasks s)), ok 200 "Task deleted successfully")
   ↔ p_owner P = user_id (user req) ∨ user_role (user req) = "admin")
  ∧ (TaskController.deleteTask s req
     = (s, fail 403 "Not authorized to delete this task")
   ↔ ¬ (p_owner P = user_id (user req) ∨ user_role (user req) = "admin")).
Proof.
  intros Ht HP. unfold TaskController.deleteTask.
  rewrite Ht, HP.
  destruct (String.eqb_spec (p_owner P) (user_id (user req)));
    destruct (String.eqb_spec (user_role (user req)) "admin"); simpl;
    split; split; try done; try tauto; intros [?|?]; done.
Qed.

(** C3. [u2] created task [t1] and is a plain member of its project.
    [DELETE /api/tasks/t1] by [u2] answers 403 and the task stays, where the
    rule lets the creator delete.  The [canDeleteTask] middleware, which
    allows the creator, is not mounted on the route; on the same request it
    calls [next()]. *)
Theorem deleteTask_refused_for_creator :
  let req := Sample.request Sample.u2 "member" "DELETE" (Sample.idParam Sample.t1_id) [] in
  t_createdBy Sample.t1 = Sample.u2
  ∧ TaskRoutes.delete_task Sample.store req
    = (Sample.store, fail 403 "Not authorized to delete this task")
  ∧ PermissionMiddleware.canDeleteTask Sample.store req = Next.
Proof. simpl. split; [reflexivity|]. split; vm_compute; reflexivity. Qed.

(** ** The roster invariant *)








(** In another spelling the identifier of a member passes the test and is
    stored a second time: the owner [u1] adds [u2], written in upper case,
    to [p1]. *)
Example addMember_other_spelling_duplicates :
  let req := Sample.request Sample.u1 "member" "POST" (Sample.idParam Sample.p1_id)
               [("userId", JStr Sample.u2_upper)] in
  let out := ProjectController.addMember Sample.env Sample.store req in
  out.2 = ok 200 "Member added successfully"
  ∧ (memberUsers <$> projects out.1 !! Sample.p1_id)
    = Some [Sample.u2; Sample.u3; Sample.u2].
Proof. simpl. split; vm_compute; reflexivity. Qed.


(** C5. Project [p1] satisfies the invariant.  Its owner [u1] sends
    [PUT /api/projects/p1] with a [members] array that lists [u1] itself and
    [u2] twice: the handler drops only the [owner] key of the body and
    writes the rest, so afterwards the owner is on the roster and [u2] is on
    it twice, where the invariant asks for neither.  [addMember] refuses
    both when it is given these identifiers. *)
Theorem updateProject_breaks_roster_invariant :
  let req := Sample.request Sample.u1 "member" "PUT" (Sample.idParam Sample.p1_id)
               [("members", JArr [JObj [("user", JStr Sample.u1)];
                                  JObj [("user", JStr Sample.u2)];
                                  JObj [("user", JStr Sample.u2)]])] in
  let out := ProjectController.updateProject Sample.env Sample.store req in
  storeOk Sample.store
  ∧ out.2 = ok 200 "Project updated successfully"
  ∧ (memberUsers <$> projects out.1 !! Sample.p1_id) = Some [Sample.u1; Sample.u2; Sample.u2]
  ∧ (p_owner <$> projects out.1 !! Sample.p1_id) = Some Sample.u1
  ∧ ¬ storeOk out.1.
Proof.
  simpl.
  assert (storeOk Sample.store) as Hok.
  { unfold storeOk, Sample.store. simpl. apply map_Forall_singleton.
    split; change (memberUsers Sample.p1) with [Sample.u2; Sample.u3]; simpl.
    - rewrite !elem_of_cons, elem_of_nil. intros [?|[?|[]]]; discriminate.
    - apply NoDup_cons. split.
      + rewrite list_elem_of_singleton. discriminate.
      + apply NoDup_singleton. }
  split; [exact Hok|]. split; [vm_compute; reflexivity|].
  split; [vm_compute; reflexivity|]. split; [vm_compute; reflexivity|].
  intros Hbad.
  pose (p := mkProject "Website" None Sample.u1
               [mkMember Sample.u1 "member" 1000%Z; mkMember Sample.u2 "member" 1000%Z;
                mkMember Sample.u2 "member" 1000%Z]
               None None "active" [] (mkSettings false false "medium") false).
  assert (rosterOk p) as [Hown _].
  { apply (Hbad Sample.p1_id). vm_compute. reflexivity. }
  apply Hown. apply list_elem_of_here.
Qed.

(** ** The assignee must belong to the project *)


(** The same outsider can be made assignee through [updateTask], which has
    no membership check on the new assignee at all. *)
Example updateTask_assigns_outsider :
  let req := Sample.request Sample.u1 "member" "PUT" (Sample.idParam Sample.t1_id)
               [("assignee", JStr Sample.u4)] in
  let out := TaskRoutes.put_task Sample.env Sample.store req in
  out.2 = ok 200 "Task updated successfully"
  ∧ (t_assignee <$> tasks out.1 !! Sample.t1_id) = Some (Some Sample.u4).
Proof. simpl. split; vm_compute; reflexivity. Qed.

#[local] Arguments truthy : simpl never.
#[local] Arguments toString : simpl never.



(** * Further properties of the handlers *)

(** ** Helper facts *)

#[local] Arguments findById : simpl never.
#[local] Arguments castId : simpl never.

Lemma get_deleteKey (k : string) (o : list (string * jsval)) :
  get k (deleteKey k o) = None.
Proof.
  induction o as [|[k' v] o IH]; [done|]. unfold deleteKey in *. simpl.
  destruct (String.eqb k' k) eqn:Heq; simpl; [done|]. by rewrite Heq.
Qed.

Lemma plainUpdate_deleteKey (k : string) (o : list (string * jsval)) :
  plainUpdate o = true → plainUpdate (deleteKey k o) = true.
Proof.
  unfold plainUpdate, deleteKey. rewrite !forallb_forall.
  intros H kv Hin. apply filter_In in Hin as [Hin _]. by apply H.
Qed.

Lemma Project_update_owner (env : Env) (updates : list (string * jsval))
    (p p' : Project) :
  plainUpdate updates = true →
  get "owner" updates = None →
  Project_update env updates p = Some p' →
  p_owner p' = p_owner p.
Proof.
  intros Hplain Ho. unfold Project_update. rewrite Hplain, Ho. simpl. intros H.
  repeat (apply bind_Some in H as (? & _ & H)). simpl in H. by injection H as <-.
Qed.

Lemma withMembers_same (p : Project) : withMembers p (p_members p) = p.
Proof. by destruct p. Qed.

Lemma withMembers_twice (p : Project) (ms ms' : list Member) :
  withMembers (withMembers p ms) ms' = withMembers p ms'.
Proof. done. Qed.

Lemma setProjects_same (s : Store) : setProjects s (projects s) = s.
Proof. by destruct s. Qed.

Lemma strictEq_members_false (u : ObjectId) (ms : list Member) :
  existsb (fun m => strictEq (m_user m) (Some (JStr u))) ms = false ↔
  u ∉ m_user <$> ms.
Proof.
  induction ms as [|m ms IH]; simpl.
  - split; [intros _; apply not_elem_of_nil | done].
  - rewrite orb_false_iff, IH, not_elem_of_cons, String.eqb_neq.
    split; intros [? ?]; (split; [congruence | done]).
Qed.

Ltac refused := by (simplify_eq; simpl in *; simplify_eq).

(** a lookup that found a document, as a fact about the collection *)
Ltac found :=
  repeat match goal with
         | H : findById _ _ = Doc _ _ |- _ => apply findById_Doc in H as [? H]
         end.

(** What a successful [addMember] did: the user it names, as written, is
    neither the owner nor on the roster; the cast of the name is stored. *)
Lemma addMember_success (env : Env) (s s' : Store) (req : Request) (r : Response) :
  ProjectController.addMember env s req = (s', r) →
  success r = true →
  ∃ pid project u i m,
    findById (projects s) (params_id (params req)) = Doc pid project
    ∧ negb (String.eqb (p_owner project) (user_id (user req)))
      && negb (String.eqb (user_role (user req)) "admin") = false
    ∧ get "userId" (body req) = Some (JStr u)
    ∧ castId u = Some i
    ∧ is_Some (users s !! i)
    ∧ u ≠ p_owner project
    ∧ (u ∉ memberUsers project)
    ∧ m_user m = i
    ∧ s' = setProjects s
             (<[pid := withMembers project (p_members project ++ [m])]> (projects s))
    ∧ r = ok 200 "Member added successfully".
Proof.
  unfold ProjectController.addMember. intros H Hr.
  destruct (findById (projects s) (params_id (params req)))
    as [| |pid project] eqn:HP; [refused|refused|].
  destruct (negb _ && negb _) eqn:Hperm; [refused|].
  destruct (get "userId" (body req)) as [[| | |u| |]|] eqn:Hu;
    simpl in H; try refused.
  destruct (findById (users s) (Some u)) as [| |i usr] eqn:Hus; [refused|refused|].
  apply findById_Doc in Hus as [Hi Hus]. simpl in Hi.
  destruct (existsb _ _ || _) eqn:Halready; [refused|].
  apply orb_false_iff in Halready as [Hmem Hown].
  rewrite Hi in H. simpl in H.
  destruct (castEnum memberRoleEnum _) as [ro|]; [|refused].
  simpl in H. injection H as <- <-.
  exists pid, project, u, i, (mkMember i ro (now env)).
  split_and!; try done.
  - simpl in Hown. apply String.eqb_neq in Hown. congruence.
  - by apply strictEq_members_false.
Qed.

(** ** The owner of a project is fixed *)

(** X1. No request to [addMember] or [removeMember], and no request to
    [updateProject] whose body names top-level paths only, changes the
    owner of a stored project: the [owner] key of an update body is
    dropped, for every actor.  None of the three removes a project.  (An
    update operator in the body is not dropped: what it writes is up to the
    database.) *)
Theorem project_owner_never_changes
    (env : Env) (s : Store) (req : Request) (pid : ObjectId) (p : Project) :
  projects s !! pid = Some p →
  (∃ p', projects (ProjectController.updateProject env s req).1 !! pid = Some p'
         ∧ (plainUpdate (body req) = true → p_owner p' = p_owner p))
  ∧ (∃ p', projects (ProjectController.addMember env s req).1 !! pid = Some p'
           ∧ p_owner p' = p_owner p)
  ∧ (∃ p', projects (ProjectController.removeMember s req).1 !! pid = Some p'
           ∧ p_owner p' = p_owner p).
Proof.
  intros Hp.
  assert (∃ p', projects s !! pid = Some p' ∧ p_owner p' = p_owner p) as Hsame
    by (by exists p).
  assert (∃ p', projects s !! pid = Some p'
                ∧ (plainUpdate (body req) = true → p_owner p' = p_owner p))
    as Hsame' by (by exists p).
  split; [|split].
  - unfold ProjectController.updateProject.
    destruct (findById (projects s) (params_id (params req)))
      as [| |pid0 project] eqn:HP; [done|done|].
    apply findById_Doc in HP as [_ HP].
    destruct (negb _ && negb _); [done|].
    destruct (Project_update env _ project) as [project'|] eqn:Hup; [|done].
    simpl. destruct (decide (pid0 = pid)) as [->|Hne].
    + rewrite lookup_insert_eq. exists project'. split; [done|]. intros Hplain.
      apply Project_update_owner in Hup;
        [|by apply plainUpdate_deleteKey|apply get_deleteKey].
      congruence.
    + by rewrite lookup_insert_ne.
  - destruct (ProjectController.addMember env s req) as [s' r] eqn:Hadd.
    destruct (success r) eqn:Hr.
    + apply addMember_success in Hadd as (pid0 & project & u & i & m & HP & _ & _
        & _ & _ & _ & _ & _ & -> & _); [|done].
      apply findById_Doc in HP as [_ HP].
      simpl. destruct (decide (pid0 = pid)) as [->|Hne].
      * rewrite lookup_insert_eq. eexists. split; [done|]. simpl. congruence.
      * by rewrite lookup_insert_ne.
    + revert Hadd. unfold ProjectController.addMember.
      repeat case_match; intros; simplify_eq; done.
  - unfold ProjectController.removeMember.
    destruct (findById (projects s) (params_id (params req)))
      as [| |pid0 project] eqn:HP; [done|done|].
    apply findById_Doc in HP as [_ HP].
    destruct (negb _ && negb _); [done|].
    destruct (eqParam _ _); [done|].
    simpl. destruct (decide (pid0 = pid)) as [->|Hne].
    + rewrite lookup_insert_eq. eexists. split; [done|]. simpl. congruence.
    + by rewrite lookup_insert_ne.
Qed.

Lemma project_owner_never_changes_witness :
  let req := Sample.request Sample.u1 "member" "PUT" (Sample.idParam Sample.p1_id)
               [("owner", JStr Sample.u4); ("name", JStr "Renamed")] in
  ∃ p', projects (ProjectController.updateProject Sample.env Sample.store req).1
          !! Sample.p1_id = Some p'
        ∧ p_owner p' = Sample.u1.
Proof.
  intros req.
  destruct (proj1 (project_owner_never_changes Sample.env Sample.store req
                     Sample.p1_id Sample.p1 eq_refl)) as (p' & Hp' & Hown).
  exists p'. split; [exact Hp' | exact (Hown eq_refl)].
Defined.

(** ** Who may write a project *)

(** X2. An actor who is neither the owner of an existing project nor a
    global admin gets 403 from [updateProject], [deleteProject], [addMember]
    and [removeMember], whatever the role the actor has inside the project,
    and the store is unchanged. *)
Theorem project_writes_refused
    (env : Env) (s : Store) (req : Request) (pid : ObjectId) (p : Project) :
  findById (projects s) (params_id (params req)) = Doc pid p →
  p_owner p ≠ user_id (user req) →
  user_role (user req) ≠ "admin" →
  ProjectController.updateProject env s req
    = (s, fail 403 "Not authorized to update this project")
  ∧ ProjectController.deleteProject s req
    = (s, fail 403 "Not authorized to delete this project")
  ∧ ProjectController.addMember env s req
    = (s, fail 403 "Not authorized to add members")
  ∧ ProjectController.removeMember s req
    = (s, fail 403 "Not authorized to remove members").
Proof.
  intros HP Hown Hrole.
  unfold ProjectController.updateProject, ProjectController.deleteProject,
    ProjectController.addMember, ProjectController.removeMember.
  rewrite HP, (eqb_false_of_ne _ _ Hown), (eqb_false_of_ne _ _ Hrole). done.
Qed.

Lemma project_writes_refused_witness :
  let req := Sample.request Sample.u3 "manager" "PUT" (Sample.idParam Sample.p1_id)
               [("name", JStr "Renamed")] in
  ProjectController.updateProject Sample.env Sample.store req
    = (Sample.store, fail 403 "Not authorized to update this project")
  ∧ ProjectController.deleteProject Sample.store req
    = (Sample.store, fail 403 "Not authorized to delete this project")
  ∧ ProjectController.addMember Sample.env Sample.store req
    = (Sample.store, fail 403 "Not authorized to add members")
  ∧ ProjectController.removeMember Sample.store req
    = (Sample.store, fail 403 "Not authorized to remove members").
Proof.
  apply (project_writes_refused Sample.env Sample.store _ Sample.p1_id Sample.p1);
    [vm_compute; reflexivity | discriminate | discriminate].
Defined.

(** ** Adding and removing members *)



Lemma filter_not_member (u : ObjectId) (ms : list Member) :
  u ∉ m_user <$> ms →
  List.filter (fun m => negb (eqParam (m_user m) (Some u))) ms = ms.
Proof.
  induction ms as [|m ms IH]; [done|]. simpl.
  rewrite not_elem_of_cons. intros [Hne Hrest].
  rewrite (eqb_false_of_ne (m_user m) u) by congruence. simpl.
  f_equal. by apply IH.
Qed.

(** X4. Removing the user that a successful [addMember] has just added
    gives back the store from before the addition, when both requests name
    the user in the spelling of the store.  (Named in another spelling, the
    user is added but not removed: the roster is filtered by the string of
    the route.) *)
Theorem addMember_removeMember_roundtrip
    (env : Env) (s s' : Store) (req req' : Request) (r : Response) (u : ObjectId) :
  ProjectController.addMember env s req = (s', r) →
  success r = true →
  get "userId" (body req) = Some (JStr u) →
  castId u = Some u →
  user req' = user req →
  params_id (params req') = params_id (params req) →
  params_memberId (params req') = Some u →
  ProjectController.removeMember s' req' = (s, ok 200 "Member removed successfully").
Proof.
  intros Hadd Hr Hu Hcanon Huser Hid' Hmid.
  apply addMember_success in Hadd
    as (pid & project & u' & i & m & HP & Hperm & Hu' & Hi & _ & Hown & Hmem & Hm
        & -> & _);
    [|done].
  assert (u' = u) as -> by congruence.
  assert (i = u) as -> by congruence.
  apply findById_Doc in HP as [Hid HP].
  unfold ProjectController.removeMember.
  assert (findById (projects (setProjects s
                      (<[pid := withMembers project (p_members project ++ [m])]>
                         (projects s)))) (params_id (params req'))
          = Doc pid (withMembers project (p_members project ++ [m]))) as ->.
  { apply findById_Doc. rewrite Hid'. split; [done | apply lookup_insert_eq]. }
  rewrite Hmid, Huser. simpl.
  rewrite Hperm. rewrite (eqb_false_of_ne (p_owner project) u) by congruence.
  rewrite List.filter_app. simpl. rewrite Hm, String.eqb_refl. simpl.
  rewrite app_nil_r, (filter_not_member u) by done.
  rewrite insert_insert_eq, withMembers_twice, withMembers_same.
  rewrite (insert_id _ _ _ HP). by destruct s.
Qed.

Lemma addMember_removeMember_roundtrip_witness :
  let add := Sample.request Sample.u1 "member" "POST" (Sample.idParam Sample.p1_id)
               [("userId", JStr Sample.u4)] in
  let remove := Sample.request Sample.u1 "member" "DELETE"
                  (mkParams (Some Sample.p1_id) (Some Sample.u4) None None) [] in
  let out := ProjectController.addMember Sample.env Sample.store add in
  out.2 = ok 200 "Member added successfully"
  ∧ ProjectController.removeMember out.1 remove
    = (Sample.store, ok 200 "Member removed successfully").
Proof.
  intros add remove out. split; [vm_compute; reflexivity|].
  apply (addMember_removeMember_roundtrip Sample.env Sample.store out.1 add remove
           out.2 Sample.u4 (surjective_pairing out) ltac:(vm_compute; reflexivity));
    (reflexivity || (vm_compute; reflexivity)).
Defined.

(** The same round trip with the user named in upper case: [u4] is added
    to [p1], the removal answers 200 and [u4] is still on the roster. *)
Example addMember_removeMember_other_spelling :
  let upper := "64F1A2B3C4D5E6F708091A04" in
  let add := Sample.request Sample.u1 "member" "POST" (Sample.idParam Sample.p1_id)
               [("userId", JStr upper)] in
  let remove := Sample.request Sample.u1 "member" "DELETE"
                  (mkParams (Some Sample.p1_id) (Some upper) None None) [] in
  let added := ProjectController.addMember Sample.env Sample.store add in
  let removed := ProjectController.removeMember added.1 remove in
  added.2 = ok 200 "Member added successfully"
  ∧ removed.2 = ok 200 "Member removed successfully"
  ∧ (memberUsers <$> projects removed.1 !! Sample.p1_id)
    = Some [Sample.u2; Sample.u3; Sample.u4].
Proof. simpl. split_and!; vm_compute; reflexivity. Qed.

(** What a successful [removeMember] did. *)
Lemma removeMember_success (s s' : Store) (req : Request) (r : Response) :
  ProjectController.removeMember s req = (s', r) →
  success r = true →
  ∃ pid project,
    findById (projects s) (params_id (params req)) = Doc pid project
    ∧ eqParam (p_owner project) (params_memberId (params req)) = false
    ∧ s' = setProjects s
             (<[pid := withMembers project
                         (List.filter
                            (fun m => negb (eqParam (m_user m)
                                              (params_memberId (params req))))
                            (p_members project))]> (projects s))
    ∧ r = ok 200 "Member removed successfully".
Proof.
  unfold ProjectController.removeMember. intros H Hr.
  destruct (findById (projects s) (params_id (params req)))
    as [| |pid project] eqn:HP; [refused|refused|].
  destruct (negb _ && negb _); [refused|].
  destruct (eqParam _ _) eqn:Hown; [refused|].
  injection H as <- <-. by exists pid, project.
Qed.

Lemma filter_removes_member (u : ObjectId) (ms : list Member) :
  u ∉ m_user <$> List.filter (fun m => negb (eqParam (m_user m) (Some u))) ms.
Proof.
  induction ms as [|m ms IH]; simpl; [apply not_elem_of_nil|].
  destruct (String.eqb_spec (m_user m) u); simpl; [done|].
  apply not_elem_of_cons. split; [congruence | done].
Qed.

(** X5. After a successful [removeMember] the removed user is no longer on
    the roster, and, unless a global admin, is refused with 403 when
    creating a task in that project. *)
Theorem removeMember_revokes_task_creation
    (env : Env) (s s' : Store) (req req' : Request) (r : Response)
    (pid u raw : ObjectId) :
  ProjectController.removeMember s req = (s', r) →
  success r = true →
  routeId req = Some pid →
  params_memberId (params req) = Some u →
  user_id (user req') = u →
  user_role (user req') ≠ "admin" →
  validationErrors req' = [] →
  get "project" (body req') = Some (JStr raw) →
  castId raw = Some pid →
  (∃ p', projects s' !! pid = Some p' ∧ u ∉ memberUsers p')
  ∧ TaskController.createTask env s' req'
    = (s', fail 403 "Not authorized to create tasks in this project").
Proof.
  intros Hrem Hr Hid Hmid Hu Hrole Hval Hproj Hraw.
  apply removeMember_success in Hrem as (pid' & project & HP & Hown & -> & _);
    [|done].
  apply findById_Doc in HP as [Hid' HP].
  assert (pid' = pid) as -> by (unfold routeId in Hid; congruence).
  rewrite Hmid in *. simpl in Hown. apply String.eqb_neq in Hown.
  pose proof (filter_removes_member u (p_members project)) as Hgone.
  split.
  - eexists. split; [simpl; apply lookup_insert_eq|]. exact Hgone.
  - unfold TaskController.createTask. rewrite Hval, Hproj.
    match goal with
    | |- context [findByIdVal ?c (Some (JStr raw))] =>
        assert (findByIdVal c (Some (JStr raw))
                = Doc pid (withMembers project
                             (List.filter
                                (fun m => negb (eqParam (m_user m) (Some u)))
                                (p_members project)))) as ->
    end.
    { apply findByIdVal_Doc. exists raw. split; [done|]. split; [done|].
      simpl. apply lookup_insert_eq. }
    simpl. rewrite Hu.
    rewrite (eqb_false_of_ne _ _ Hown), (eqb_false_of_ne _ _ Hrole).
    apply (someMember_false u
             (withMembers project
                (List.filter (fun m => negb (eqParam (m_user m) (Some u)))
                   (p_members project)))) in Hgone.
    match goal with
    | |- context [someMember u ?p] =>
        replace (someMember u p) with false by (symmetry; exact Hgone)
    end.
    done.
Qed.

Lemma removeMember_revokes_task_creation_witness :
  let remove := Sample.request Sample.u1 "member" "DELETE"
                  (mkParams (Some Sample.p1_id) (Some Sample.u2) None None) [] in
  let create := Sample.request Sample.u2 "member" "POST" Sample.noParams
                  [("title", JStr "Write report"); ("project", JStr Sample.p1_id)] in
  let out := ProjectController.removeMember Sample.store remove in
  is_Some (tasks (TaskController.createTask Sample.env Sample.store create).1
             !! Sample.n1)
  ∧ TaskController.createTask Sample.env out.1 create
    = (out.1, fail 403 "Not authorized to create tasks in this project").
Proof.
  intros remove create out. split; [eexists; vm_compute; reflexivity|].
  apply (proj2 (removeMember_revokes_task_creation Sample.env Sample.store out.1
                  remove create out.2 Sample.p1_id Sample.u2 Sample.p1_id
                  (surjective_pairing out) ltac:(vm_compute; reflexivity)
                  ltac:(vm_compute; reflexivity) eq_refl eq_refl
                  ltac:(discriminate) eq_refl eq_refl
                  ltac:(vm_compute; reflexivity))).
Defined.

(** ** Deleting and creating projects *)

(** X6. A successful [deleteProject] removes the project and exactly the
    tasks that belong to it; the users, the other projects and the other
    tasks are untouched. *)
Theorem deleteProject_cascade
    (s s' : Store) (req : Request) (r : Response) (pid : ObjectId) :
  ProjectController.deleteProject s req = (s', r) →
  success r = true →
  routeId req = Some pid →
  users s' = users s
  ∧ projects s' = delete pid (projects s)
  ∧ ∀ (tid : ObjectId) (t : Task),
      tasks s' !! tid = Some t ↔ tasks s !! tid = Some t ∧ t_project t ≠ pid.
Proof.
  unfold ProjectController.deleteProject. intros H Hr Hid.
  destruct (findById (projects s) (params_id (params req)))
    as [| |pid' project] eqn:HP; [refused|refused|].
  apply findById_Doc in HP as [Hid' HP].
  assert (pid' = pid) as -> by (unfold routeId in Hid; congruence).
  destruct (negb _ && negb _); [refused|].
  injection H as <- <-. simpl. split; [done|]. split; [done|].
  intros tid t. by rewrite map_lookup_filter_Some.
Qed.

Lemma deleteProject_cascade_witness :
  let req := Sample.request Sample.a0 "admin" "DELETE" (Sample.idParam Sample.p1_id) [] in
  let out := ProjectController.deleteProject Sample.store req in
  projects out.1 = delete Sample.p1_id (projects Sample.store)
  ∧ tasks out.1 !! Sample.t1_id = None.
Proof.
  intros req out.
  destruct (deleteProject_cascade Sample.store out.1 req out.2 Sample.p1_id
              (surjective_pairing out) ltac:(vm_compute; reflexivity)
              ltac:(vm_compute; reflexivity))
    as (_ & Hp & Ht).
  split; [exact Hp|].
  destruct (tasks out.1 !! Sample.t1_id) as [t|] eqn:Hlook; [|reflexivity].
  apply Ht in Hlook as [Hlook Hne]. exfalso. apply Hne.
  vm_compute in Hlook. injection Hlook as <-. reflexivity.
Defined.




(** A name that is a number is stored as its decimal form. *)
Example createProject_numeric_name :
  let req := Sample.request Sample.u4 "member" "POST" Sample.noParams
               [("name", JNum 12345)] in
  let out := ProjectController.createProject Sample.env Sample.store req in
  out.2 = ok 201 "Project created successfully"
  ∧ (p_name <$> projects out.1 !! Sample.n1) = Some "12345".
Proof. simpl. split; vm_compute; reflexivity. Qed.

(** ** What the task handlers write *)

Ltac inv_match H Hc :=
  match type of H with
  | (match ?c with _ => _ end) = _ => destruct c eqn:Hc
  end.

Lemma Task_create_fields (env : Env) (title description project : option jsval)
    (priority : jsval) (dueDate assignee tags : option jsval)
    (createdBy : ObjectId) (st : string) (t : Task) :
  Task_create env title description project priority dueDate assignee tags
    createdBy st = Some t →
  t_createdBy t = createdBy ∧ t_status t = st ∧ t_comments t = []
  ∧ t_isArchived t = false
  ∧ project ≫= castObjectId = Some (t_project t)
  ∧ optional castObjectId assignee = Some (t_assignee t)
  ∧ castEnum priorityEnum priority = Some (t_priority t)
  ∧ title ≫= castName = Some (t_title t).
Proof.
  unfold Task_create. intros H.
  apply bind_Some in H as (ti & Hti & H).
  apply bind_Some in H as (d & _ & H).
  apply bind_Some in H as (pr & Hpr & H).
  apply bind_Some in H as (pri & Hpri & H).
  apply bind_Some in H as (du & _ & H).
  apply bind_Some in H as (a & Ha & H).
  apply bind_Some in H as (tg & _ & H).
  apply bind_Some in H as (? & _ & H).
  injection H as <-. simpl. by repeat split.
Qed.

(** The JSON form of a task throws when its project exists and was
    populated without [members]. *)
Lemma taskJSON_throws (select : list string) (ps : gmap string Project)
    (t : Task) (P : Project) :
  ps !! t_project t = Some P →
  includes select "members" = false →
  taskJSON select ps t = None.
Proof.
  intros HP Hsel. unfold taskJSON, populatedProjectJSON. by rewrite HP, Hsel.
Qed.

(** What [createTask] does: it fails and writes nothing, or it stores one
    task under the fresh identifier and then answers 500, because the
    response is the JSON form of the task with its project populated by
    [name] only. *)
Lemma createTask_cases (env : Env) (s : Store) (req : Request) :
  (TaskController.createTask env s req).1 = s
  ∧ success (TaskController.createTask env s req).2 = false
  ∨ ∃ pid P t,
      findByIdVal (projects s) (get "project" (body req)) = Doc pid P
      ∧ validationErrors req = []
      ∧ (String.eqb (p_owner P) (user_id (user req))
         || someMember (user_id (user req)) P
         || String.eqb (user_role (user req)) "admin") = true
      ∧ tasks s !! freshId env = None
      ∧ TaskController.createTask env s req
        = (setTasks s (<[freshId env := t]> (tasks s)), serverError)
      ∧ Task_create env (get "title" (body req)) (get "description" (body req))
          (get "project" (body req))
          (if truthy (get "priority" (body req))
           then default JNull (get "priority" (body req)) else JStr "medium")
          (get "dueDate" (body req)) (get "assignee" (body req))
          (get "tags" (body req)) (user_id (user req)) "todo" = Some t
      ∧ t_createdBy t = user_id (user req) ∧ t_status t = "todo"
      ∧ t_project t = pid ∧ t_comments t = []
      ∧ (∀ a, t_assignee t = Some a → user_role (user req) ≠ "admin" →
              ∃ raw, get "assignee" (body req) = Some (JStr raw)
                     ∧ castId raw = Some a
                     ∧ (raw = p_owner P ∨ raw ∈ memberUsers P)).
Proof.
  unfold TaskController.createTask.
  destruct (validationErrors req); [|by left].
  cbv zeta.
  destruct (findByIdVal (projects s) (get "project" (body req)))
    as [| |pid P] eqn:Hfind; [by left|by left|].
  destruct (negb _) eqn:Hacc; [by left|]. apply negb_false_iff in Hacc.
  match goal with
  | |- context [if ?b then (s, fail 400 _) else _] => destruct b eqn:Hrej
  end; [by left|].
  destruct (Task_create _ _ _ _ _ _ _ _ _ _) as [t|] eqn:Hcreate; [|by left].
  unfold insertNew.
  destruct (tasks s !! freshId env) eqn:Hfresh; [by left|].
  pose proof Hcreate as Hfields.
  apply Task_create_fields in Hfields as (Hcb & Hst & Hco & _ & Hpr & Has & _ & _).
  apply findByIdVal_Doc in Hfind as Hfind'.
  destruct Hfind' as (rawp & Hproj & Hrawp & HP).
  rewrite Hproj in Hpr. simpl in Hpr.
  assert (t_project t = pid) as Hpid by congruence.
  rewrite (taskJSON_throws ["name"] (projects s) t P) by (by rewrite ?Hpid).
  right. exists pid, P, t. split_and!; try done.
  intros a Ha Hrole. rewrite Ha in Has.
  destruct (get "assignee" (body req)) as [v|] eqn:Hass; [|done].
  destruct v as [| | |raw| |]; simpl in Has; try done.
  apply fmap_Some in Has as (a' & Hcast & [= <-]).
  exists raw. split; [done|]. split; [done|].
  assert (truthy (Some (JStr raw)) = true) as Htruthy.
  { unfold truthy. apply castId_nonempty in Hcast.
    by rewrite (eqb_false_of_ne raw ""). }
  rewrite Htruthy in Hrej. simpl in Hrej.
  rewrite (eqb_false_of_ne _ _ Hrole), andb_true_r in Hrej.
  apply negb_false_iff, orb_true_iff in Hrej as [Hrej|Hrej].
  - left. by apply String.eqb_eq.
  - right. by apply someMember_true.
Qed.



(** X9. [updateTask] has no membership check for the plain fields: every
    authenticated actor, also one outside the project, can retitle an
    existing task; the title is stored trimmed and nothing else changes. *)
Theorem updateTask_title_by_anyone
    (env : Env) (s : Store) (req : Request) (tid : ObjectId) (t : Task)
    (P : Project) (ti : string) :
  findById (tasks s) (params_id (params req)) = Doc tid t →
  projects s !! t_project t = Some P →
  body req = [("title", JStr ti)] →
  (3 ≤ String.length (trim ti) ≤ 100)%nat →
  TaskRoutes.put_task env s req
  = (setTasks s (<[tid := withTitle t (trim ti)]> (tasks s)),
     ok 200 "Task updated successfully").
Proof.
  intros Ht HP Hb [Hmin Hmax].
  unfold TaskRoutes.put_task, TaskRoutes.route, TaskController.updateTask.
  rewrite Ht, HP, Hb. unfold truthy. cbn -[Nat.leb trim String.length].
  unfold Task_update, castName. cbn -[Nat.leb trim String.length].
  assert (negb (String.eqb (trim ti) "") = true) as ->.
  { destruct (trim ti); [simpl in Hmin; lia | done]. }
  apply Nat.leb_le in Hmin, Hmax. rewrite Hmin, Hmax. done.
Qed.

Lemma updateTask_title_by_anyone_witness :
  let req := Sample.request Sample.u4 "member" "PUT" (Sample.idParam Sample.t1_id)
               [("title", JStr " Design the landing page ")] in
  (Sample.u4 ∉ memberUsers Sample.p1)
  ∧ TaskRoutes.put_task Sample.env Sample.store req
    = (setTasks Sample.store
         (<[Sample.t1_id := withTitle Sample.t1 (trim " Design the landing page ")]>
            (tasks Sample.store)),
       ok 200 "Task updated successfully").
Proof.
  split.
  - change (memberUsers Sample.p1) with [Sample.u2; Sample.u3].
    rewrite !elem_of_cons, elem_of_nil. intros [?|[?|[]]]; discriminate.
  - apply (updateTask_title_by_anyone Sample.env Sample.store _ Sample.t1_id
             Sample.t1 Sample.p1 " Design the landing page ");
      [vm_compute; reflexivity | reflexivity | reflexivity | vm_compute; lia].
Defined.

(** ** No partial mutation *)

Ltac all_or_nothing :=
  repeat case_match; simpl; auto.

(** X10. Every write handler other than [createTask] either answers
    [success: true] or leaves the store exactly as it was: a refused, failed
    or invalid request writes nothing.  [createTask] is the exception: when
    it writes, it stores the new task and answers 500. *)
Theorem failure_writes_nothing (env : Env) (s : Store) (req : Request) :
  let unchanged_or_ok (out : Store * Response) :=
    out.1 = s ∨ success out.2 = true in
  unchanged_or_ok (ProjectController.createProject env s req)
  ∧ unchanged_or_ok (ProjectController.updateProject env s req)
  ∧ unchanged_or_ok (ProjectController.deleteProject s req)
  ∧ unchanged_or_ok (ProjectController.addMember env s req)
  ∧ unchanged_or_ok (ProjectController.removeMember s req)
  ∧ unchanged_or_ok (TaskController.updateTask env s req)
  ∧ unchanged_or_ok (TaskController.deleteTask s req)
  ∧ unchanged_or_ok (TaskController.updateTaskStatus s req)
  ∧ unchanged_or_ok (TaskController.addComment env s req)
  ∧ unchanged_or_ok (UserController.updateUserRole s req)
  ∧ unchanged_or_ok (UserController.updateUserStatus s req)
  ∧ unchanged_or_ok (UserController.deleteUser s req)
  ∧ ((TaskController.createTask env s req).1 = s
     ∨ ∃ t, TaskController.createTask env s req
            = (setTasks s (<[freshId env := t]> (tasks s)), serverError)
            ∧ tasks s !! freshId env = None).
Proof.
  simpl. split_and!.
  - unfold ProjectController.createProject. all_or_nothing.
  - unfold ProjectController.updateProject. all_or_nothing.
  - unfold ProjectController.deleteProject. all_or_nothing.
  - unfold ProjectController.addMember. all_or_nothing.
  - unfold ProjectController.removeMember. all_or_nothing.
  - unfold TaskController.updateTask. all_or_nothing.
  - unfold TaskController.deleteTask. all_or_nothing.
  - unfold TaskController.updateTaskStatus. all_or_nothing.
  - unfold TaskController.addComment. all_or_nothing.
  - unfold UserController.updateUserRole. all_or_nothing.
  - unfold UserController.updateUserStatus. all_or_nothing.
  - unfold UserController.deleteUser. all_or_nothing.
  - destruct (createTask_cases env s req)
      as [[Hs _]|(_ & _ & t & _ & _ & _ & Hfresh & Hout & _)]; [by left|].
    right. by exists t.
Qed.

(** ** Invariants of the store *)

(** The handlers that write a project keep the tasks and lose no project,
    apart from [deleteProject]. *)
Lemma project_writes_shape (env : Env) (s : Store) (req : Request) :
  let insertion (out : Store * Response) :=
    out.1 = s ∨ ∃ k p, out.1 = setProjects s (<[k := p]> (projects s)) in
  insertion (ProjectController.createProject env s req)
  ∧ insertion (ProjectController.updateProject env s req)
  ∧ insertion (ProjectController.addMember env s req)
  ∧ insertion (ProjectController.removeMember s req).
Proof.
  simpl. repeat split.
  - unfold ProjectController.createProject, insertNew.
    repeat case_match; simplify_eq; simpl; eauto.
  - unfold ProjectController.updateProject. repeat case_match; simpl; eauto.
  - unfold ProjectController.addMember. repeat case_match; simpl; eauto.
  - unfold ProjectController.removeMember. repeat case_match; simpl; eauto.
Qed.


(** The handlers that rewrite a task keep its project. *)
Lemma task_rewrites_shape (env : Env) (s : Store) (req : Request) :
  let rewrite_ (out : Store * Response) :=
    out.1 = s
    ∨ ∃ tid t t', tasks s !! tid = Some t ∧ t_project t' = t_project t
                  ∧ out.1 = setTasks s (<[tid := t']> (tasks s)) in
  rewrite_ (TaskController.updateTask env s req)
  ∧ rewrite_ (TaskController.updateTaskStatus s req)
  ∧ rewrite_ (TaskController.addComment env s req).
Proof.
  simpl. repeat split.
  - unfold TaskController.updateTask.
    destruct (findById (tasks s) (params_id (params req)))
      as [| |tid t] eqn:Ht; [by left|by left|].
    apply findById_Doc in Ht as [_ Ht].
    destruct (projects s !! t_project t); [|by left].
    destruct (truthy (get "status" (body req)) && _); [by left|].
    destruct (truthy (get "assignee" (body req)) && _); [by left|].
    match goal with
    | |- context [Task_update env (List.filter (fun kv => includes ?a (fst kv)) ?b) t] =>
        assert (includes a "createdBy" = false ∧ includes a "project" = false
                ∧ includes a "isArchived" = false) as (Hc & Hp & Ha)
          by (destruct (truthy (get "status" (body req))),
                       (truthy (get "assignee" (body req))); by repeat split);
        pose proof (fun t' =>
                      Task_update_fixed env _ t t'
                        (get_filter_excluded a _ b Hc)
                        (get_filter_excluded a _ b Hp)
                        (get_filter_excluded a _ b Ha)) as Hfix
    end.
    destruct (Task_update env _ t) as [t'|]; [|by left].
    right. exists tid, t, t'. split; [done|]. split; [|done].
    by destruct (Hfix t' eq_refl).
  - unfold TaskController.updateTaskStatus.
    destruct (negb _); [by left|].
    destruct (findById (tasks s) (params_id (params req)))
      as [| |tid t] eqn:Ht; [by left|by left|].
    apply findById_Doc in Ht as [_ Ht].
    repeat case_match; simpl; eauto; right; do 3 eexists;
      (split; [|split]); [| |reflexivity]; [eassumption|reflexivity].
  - unfold TaskController.addComment.
    destruct (findById (tasks s) (params_id (params req)))
      as [| |tid t] eqn:Ht; [by repeat case_match; left ..|].
    apply findById_Doc in Ht as [_ Ht].
    repeat case_match; simpl; eauto; right; do 3 eexists;
      (split; [|split]); [| |reflexivity]; [eassumption|reflexivity].
Qed.

Lemma refsOk_rewrite (s : Store) (tid : ObjectId) (t t' : Task) :
  refsOk s → tasks s !! tid = Some t → t_project t' = t_project t →
  refsOk (setTasks s (<[tid := t']> (tasks s))).
Proof.
  intros Hs Ht Hp. unfold refsOk. simpl. apply map_Forall_insert_2.
  - rewrite Hp. by apply (Hs tid).
  - done.
Qed.

Lemma refsOk_insert_project (s : Store) (k : ObjectId) (p : Project) :
  refsOk s → refsOk (setProjects s (<[k := p]> (projects s))).
Proof.
  intros Hs tid t Ht. simpl in *. rewrite lookup_insert_is_Some.
  destruct (decide (k = t_project t)); [by left|]. right. split; [done|].
  by apply (Hs tid).
Qed.

Lemma deleteUser_success (s s' : Store) (req : Request) (r : Response) :
  UserController.deleteUser s req = (s', r) →
  success r = true →
  ∃ uid,
    routeId req = Some uid
    ∧ user_role (user req) = "admin"
    ∧ params_id (params req) ≠ Some (user_id (user req))
    ∧ is_Some (users s !! uid)
    ∧ users s' = delete uid (users s)
    ∧ projects s'
      = (fun p => withMembers p
                    (List.filter (fun m => negb (String.eqb (m_user m) uid))
                       (p_members p)))
          <$> filter (fun kp => p_owner kp.2 ≠ uid) (projects s)
    ∧ tasks s'
      = (fun t => if assigneeIs t uid then withAssignee t None else t)
          <$> filter (fun kt => UserController.ownedBy uid (projects s)
                                  (t_project kt.2) = false) (tasks s).
Proof.
  unfold UserController.deleteUser. intros H Hr.
  destruct (String.eqb_spec (user_role (user req)) "admin") as [Hadm|]; [|refused].
  simpl in H.
  destruct (findById (users s) (params_id (params req)))
    as [| |uid u] eqn:Hu; [refused|refused|].
  apply findById_Doc in Hu as [Hid Hu].
  destruct (eqParam _ _) eqn:Hself; [refused|].
  injection H as <- <-. exists uid. split_and!; eauto.
  intros Heq. rewrite Heq in Hself. simpl in Hself.
  by rewrite String.eqb_refl in Hself.
Qed.

Lemma deleteUser_all_or_nothing (s : Store) (req : Request) :
  (UserController.deleteUser s req).1 = s
  ∨ success (UserController.deleteUser s req).2 = true.
Proof. unfold UserController.deleteUser. all_or_nothing. Qed.

Lemma deleteUser_refsOk (s : Store) (req : Request) :
  refsOk s → refsOk (UserController.deleteUser s req).1.
Proof.
  intros Hs.
  destruct (UserController.deleteUser s req) as [s' r] eqn:Hdel.
  destruct (success r) eqn:Hr.
  - apply deleteUser_success in Hdel as (uid & _ & _ & _ & _ & _ & Hps & Hts);
      [|done].
    intros tid t' Ht'. simpl in *. rewrite Hts in Ht'. rewrite Hps.
    apply lookup_fmap_Some in Ht' as (t & <- & Ht).
    apply map_lookup_filter_Some in Ht as [Ht Hown]. simpl in Hown.
    destruct (Hs tid t Ht) as [p Hp].
    assert (t_project (if assigneeIs t uid then withAssignee t None else t)
            = t_project t) as -> by (by destruct (assigneeIs t uid)).
    rewrite lookup_fmap.
    assert (filter (fun kp => p_owner kp.2 ≠ uid) (projects s) !! t_project t
            = Some p) as ->; [|by eexists].
    apply map_lookup_filter_Some. split; [done|]. simpl.
    unfold UserController.ownedBy in Hown. rewrite Hp in Hown.
    by apply String.eqb_neq.
  - pose proof (deleteUser_all_or_nothing s req) as Haux.
    rewrite Hdel in Haux. simpl in Haux. destruct Haux as [->|?]; [done|congruence].
Qed.

(** X11. Referential integrity: if every task of the store belongs to a
    project of the store, this still holds after any request to any write
    handler; [deleteProject] and [deleteUser] delete the tasks of the
    projects they delete, and no handler moves a task to another project. *)
Theorem handlers_keep_refsOk (env : Env) (s : Store) (req : Request) :
  refsOk s →
  refsOk (ProjectController.createProject env s req).1
  ∧ refsOk (ProjectController.updateProject env s req).1
  ∧ refsOk (ProjectController.deleteProject s req).1
  ∧ refsOk (ProjectController.addMember env s req).1
  ∧ refsOk (ProjectController.removeMember s req).1
  ∧ refsOk (TaskController.createTask env s req).1
  ∧ refsOk (TaskController.updateTask env s req).1
  ∧ refsOk (TaskController.deleteTask s req).1
  ∧ refsOk (TaskController.updateTaskStatus s req).1
  ∧ refsOk (TaskController.addComment env s req).1
  ∧ refsOk (UserController.updateUserRole s req).1
  ∧ refsOk (UserController.updateUserStatus s req).1
  ∧ refsOk (UserController.deleteUser s req).1.
Proof.
  intros Hs.
  destruct (project_writes_shape env s req) as (Hcp & Hup & Ham & Hrm).
  destruct (task_rewrites_shape env s req) as (Hut & Hus & Hac).
  assert (∀ out : Store * Response,
            (out.1 = s ∨ ∃ k p, out.1 = setProjects s (<[k := p]> (projects s))) →
            refsOk out.1) as Hins.
  { intros out [->|(k & p & ->)]; [done | by apply refsOk_insert_project]. }
  assert (∀ out : Store * Response,
            (out.1 = s
             ∨ ∃ tid t t', tasks s !! tid = Some t ∧ t_project t' = t_project t
                           ∧ out.1 = setTasks s (<[tid := t']> (tasks s))) →
            refsOk out.1) as Hrew.
  { intros out [->|(tid & t & t' & Ht & Hp & ->)]; [done|].
    by eapply refsOk_rewrite. }
  repeat split; auto.
  - (* deleteProject *)
    unfold ProjectController.deleteProject.
    destruct (findById (projects s) (params_id (params req)))
      as [| |pid project]; [done|done|].
    destruct (negb _ && negb _); [done|].
    intros tid t Ht. simpl in *.
    apply map_lookup_filter_Some in Ht as [Ht Hne]. simpl in Hne.
    rewrite lookup_delete_ne by done. by apply (Hs tid).
  - (* createTask *)
    destruct (createTask_cases env s req)
      as [[-> _]|(pid & P & t & Hfind & _ & _ & _ & -> & _ & _ & _ & Hpr & _)];
      [done|].
    apply findByIdVal_Doc in Hfind as (_ & _ & _ & HP).
    unfold refsOk. simpl. apply map_Forall_insert_2; [|done].
    rewrite Hpr. by eexists.
  - (* deleteTask *)
    unfold TaskController.deleteTask. repeat case_match; try done.
    unfold refsOk. simpl. by apply map_Forall_delete.
  - (* updateUserRole *)
    unfold UserController.updateUserRole. repeat case_match; done.
  - (* updateUserStatus *)
    unfold UserController.updateUserStatus. repeat case_match; done.
  - by apply deleteUser_refsOk.
Qed.

Lemma sample_refsOk : refsOk Sample.store.
Proof.
  unfold refsOk, Sample.store. simpl. apply map_Forall_singleton.
  exists Sample.p1. reflexivity.
Qed.

Lemma handlers_keep_refsOk_witness :
  let req := Sample.request Sample.a0 "admin" "DELETE" (Sample.idParam Sample.u1) [] in
  (UserController.deleteUser Sample.store req).2 = ok 200 "User deleted successfully"
  ∧ refsOk (UserController.deleteUser Sample.store req).1.
Proof.
  intros req. split; [vm_compute; reflexivity|].
  apply (handlers_keep_refsOk Sample.env Sample.store req sample_refsOk).
Defined.





(** ** Status changes and comments *)

(** X13. A successful [PATCH /api/tasks/:id/status] stores the requested
    status on the task and changes no other field of it; when the new status
    is ['done'] the task is not overdue at any time, whatever its due date. *)
Theorem status_change_effect
    (s s' : Store) (req : Request) (r : Response) (tid : ObjectId) (st : string) :
  TaskRoutes.patch_task_status s req = (s', r) →
  success r = true →
  routeId req = Some tid →
  get "status" (body req) = Some (JStr st) →
  ∃ t, tasks s !! tid = Some t
       ∧ tasks s' = <[tid := withStatus t st]> (tasks s)
       ∧ st ∈ statusEnum
       ∧ (st = "done" → ∀ env, isOverdue env (withStatus t st) = false).
Proof.
  unfold TaskRoutes.patch_task_status, TaskRoutes.route,
    TaskController.updateTaskStatus.
  intros H Hr Hid Hst. rewrite Hst in H. cbv zeta in H.
  inv_match H Hinc; [refused|]. apply negb_false_iff in Hinc.
  inv_match H Ht; [refused|refused|].
  apply findById_Doc in Ht as [Hid' Ht].
  assert (i = tid) as -> by (unfold routeId in Hid; congruence).
  inv_match H HP; [|refused].
  inv_match H Hperm; [refused|].
  unfold castEnum in H. simpl in H, Hinc.
  change (includes statusEnum st) with
    (includes ["todo"; "inprogress"; "review"; "done"] st) in H.
  unfold includes in H. simpl in H. rewrite Hinc in H. simpl in H.
  injection H as <- <-.
  eexists. split; [done|]. split; [done|]. split.
  - apply includes_true. exact Hinc.
  - intros -> env. unfold isOverdue. simpl.
    destruct (t_dueDate _); [apply andb_false_r | done].
Qed.

Lemma status_change_effect_witness :
  let req := Sample.request Sample.u1 "member" "PATCH" (Sample.idParam Sample.t1_id)
               [("status", JStr "done")] in
  isOverdue Sample.env Sample.t1 = true
  ∧ ∃ t, tasks Sample.store !! Sample.t1_id = Some t
         ∧ ∀ env, isOverdue env (withStatus t "done") = false.
Proof.
  intros req. split; [reflexivity|].
  destruct (status_change_effect Sample.store
              (TaskRoutes.patch_task_status Sample.store req).1 req
              (TaskRoutes.patch_task_status Sample.store req).2
              Sample.t1_id "done"
              (surjective_pairing _) ltac:(vm_compute; reflexivity)
              ltac:(vm_compute; reflexivity) eq_refl)
    as (t & Ht & _ & _ & Hdone).
  exists t. split; [exact Ht | exact (Hdone eq_refl)].
Defined.

(** X14. Comments are append-only: whatever the request, [addComment]
    deletes no task and either leaves a task as it is or, on the task it
    names, appends one comment made of the actor, the trimmed non-empty text
    and the current time; no other field and no earlier comment changes. *)
Theorem addComment_appends
    (env : Env) (s : Store) (req : Request) (tid : ObjectId) (t : Task) :
  tasks s !! tid = Some t →
  tasks (TaskController.addComment env s req).1 !! tid = Some t
  ∨ ∃ text,
      routeId req = Some tid
      ∧ get "text" (body req) = Some (JStr text)
      ∧ trim text ≠ ""
      ∧ tasks (TaskController.addComment env s req).1 !! tid
        = Some (withComments t
                  (t_comments t
                   ++ [mkComment (user_id (user req)) (trim text) (now env)])).
Proof.
  intros Ht. unfold TaskController.addComment.
  destruct (get "text" (body req)) as [[| | |text| |]|] eqn:Htext;
    try (left; by repeat case_match).
  destruct (String.eqb_spec (trim text) ""); [by left|].
  destruct (findById (tasks s) (params_id (params req)))
    as [| |tid0 task] eqn:Htask; [by left|by left|].
  apply findById_Doc in Htask as [Hid Htask].
  destruct (projects s !! t_project task); [|by left].
  destruct (negb _); [by left|].
  destruct (negb _); [by left|]. simpl.
  destruct (decide (tid0 = tid)) as [->|Hne].
  - right. exists text. rewrite lookup_insert_eq.
    assert (task = t) as -> by congruence. done.
  - left. by rewrite lookup_insert_ne.
Qed.

Lemma addComment_appends_witness :
  let req := Sample.request Sample.u2 "member" "POST" (Sample.idParam Sample.t1_id)
               [("text", JStr "  Looks good ")] in
  tasks (TaskController.addComment Sample.env Sample.store req).1 !! Sample.t1_id
  = Some (withComments Sample.t1 [mkComment Sample.u2 "Looks good" 1000%Z]).
Proof.
  intros req.
  destruct (addComment_appends Sample.env Sample.store req Sample.t1_id Sample.t1
              eq_refl) as [H|(text & _ & Htext & _ & H)].
  - vm_compute in H. discriminate H.
  - rewrite H. vm_compute in Htext. injection Htext as <-. vm_compute. reflexivity.
Defined.

(** ** The schema constraints are kept *)

Lemma castEnum_Some (values : list string) (v : jsval) (x : string) :
  castEnum values v = Some x → x ∈ values.
Proof.
  unfold castEnum. intros H. apply bind_Some in H as (y & _ & H).
  apply bind_Some in H as ([] & Hc & H). injection H as <-.
  unfold check in Hc. case_match eqn:Hin; [|done]. by apply includes_true.
Qed.

Lemma castName_Some (v : jsval) (x : string) :
  castName v = Some x → (3 ≤ String.length x ≤ 100)%nat.
Proof.
  unfold castName. intros H. apply bind_Some in H as (y & _ & H).
  apply bind_Some in H as ([] & Hc & H). injection H as <-.
  unfold check in Hc. case_match eqn:Hb; [|done].
  apply andb_true_iff in Hb as [Hb Hmax]. apply andb_true_iff in Hb as [_ Hmin].
  apply Nat.leb_le in Hmax, Hmin. done.
Qed.

Lemma orKeep_Some {A} (cast : jsval → option A) (v : option jsval) (old x : A) :
  orKeep cast v old = Some x → x = old ∨ ∃ y, cast y = Some x.
Proof. destruct v; simpl; [eauto | intros [= <-]; by left]. Qed.

Lemma Task_create_valid (env : Env) (title description project : option jsval)
    (priority : jsval) (dueDate assignee tags : option jsval)
    (createdBy : ObjectId) (st : string) (t : Task) :
  Task_create env title description project priority dueDate assignee tags
    createdBy st = Some t →
  taskValid t.
Proof.
  unfold Task_create. intros H.
  apply bind_Some in H as (ti & Hti & H).
  apply bind_Some in H as (d & _ & H).
  apply bind_Some in H as (pr & _ & H).
  apply bind_Some in H as (pri & Hpri & H).
  apply bind_Some in H as (du & _ & H).
  apply bind_Some in H as (a & _ & H).
  apply bind_Some in H as (tg & _ & H).
  apply bind_Some in H as ([] & Hst & H).
  injection H as <-. unfold taskValid. simpl. split; [|split].
  - unfold check in Hst. case_match eqn:Hin; [|done]. by apply includes_true.
  - by eapply castEnum_Some.
  - destruct title as [v|]; [|done]. by eapply castName_Some.
Qed.

Lemma Task_update_valid (env : Env) (updates : list (string * jsval)) (t t' : Task) :
  taskValid t → Task_update env updates t = Some t' → taskValid t'.
Proof.
  intros (Hst & Hpri & Hti). unfold Task_update. intros H.
  apply bind_Some in H as (ti & Hti' & H).
  apply bind_Some in H as (d & _ & H).
  apply bind_Some in H as (st & Hst' & H).
  apply bind_Some in H as (pri & Hpri' & H).
  repeat (apply bind_Some in H as (? & _ & H)). injection H as <-.
  unfold taskValid. simpl. split; [|split].
  - apply orKeep_Some in Hst' as [->|[y Hy]]; [done | by eapply castEnum_Some].
  - apply orKeep_Some in Hpri' as [->|[y Hy]]; [done | by eapply castEnum_Some].
  - apply orKeep_Some in Hti' as [->|[y Hy]]; [done | by eapply castName_Some].
Qed.

(** The handlers of projects and the role and status handlers of users do
    not write tasks, apart from [deleteProject]. *)
Lemma tasks_untouched (env : Env) (s : Store) (req : Request) :
  tasks (ProjectController.createProject env s req).1 = tasks s
  ∧ tasks (ProjectController.updateProject env s req).1 = tasks s
  ∧ tasks (ProjectController.addMember env s req).1 = tasks s
  ∧ tasks (ProjectController.removeMember s req).1 = tasks s
  ∧ tasks (UserController.updateUserRole s req).1 = tasks s
  ∧ tasks (UserController.updateUserStatus s req).1 = tasks s.
Proof.
  split_and!.
  - unfold ProjectController.createProject. repeat case_match; done.
  - unfold ProjectController.updateProject. repeat case_match; done.
  - unfold ProjectController.addMember. repeat case_match; done.
  - unfold ProjectController.removeMember. repeat case_match; done.
  - unfold UserController.updateUserRole. repeat case_match; done.
  - unfold UserController.updateUserStatus. repeat case_match; done.
Qed.

Lemma tasksValid_insert (s : Store) (tid : ObjectId) (t : Task) :
  tasksValid s → taskValid t → tasksValid (setTasks s (<[tid := t]> (tasks s))).
Proof. intros Hs Ht. unfold tasksValid. simpl. by apply map_Forall_insert_2. Qed.

(** X15. The constraints of the [Task] schema are an invariant of the
    handlers: if every stored task has a status and a priority of the
    enumerations and a title of 3 to 100 characters, so it is after any
    request to any write handler. *)
Theorem handlers_keep_tasks_valid (env : Env) (s : Store) (req : Request) :
  tasksValid s →
  tasksValid (ProjectController.createProject env s req).1
  ∧ tasksValid (ProjectController.updateProject env s req).1
  ∧ tasksValid (ProjectController.deleteProject s req).1
  ∧ tasksValid (ProjectController.addMember env s req).1
  ∧ tasksValid (ProjectController.removeMember s req).1
  ∧ tasksValid (TaskController.createTask env s req).1
  ∧ tasksValid (TaskController.updateTask env s req).1
  ∧ tasksValid (TaskController.deleteTask s req).1
  ∧ tasksValid (TaskController.updateTaskStatus s req).1
  ∧ tasksValid (TaskController.addComment env s req).1
  ∧ tasksValid (UserController.updateUserRole s req).1
  ∧ tasksValid (UserController.updateUserStatus s req).1
  ∧ tasksValid (UserController.deleteUser s req).1.
Proof.
  intros Hs.
  destruct (tasks_untouched env s req) as (H1 & H2 & H3 & H4 & H5 & H6).
  split_and!;
    try by (unfold tasksValid;
            first [rewrite H1|rewrite H2|rewrite H3|rewrite H4|rewrite H5
                  |rewrite H6]).
  - (* deleteProject *)
    unfold ProjectController.deleteProject. repeat case_match; try done.
    intros tid t Ht. simpl in Ht.
    apply map_lookup_filter_Some in Ht as [Ht _]. by apply (Hs tid).
  - (* createTask *)
    unfold TaskController.createTask, insertNew.
    repeat case_match; simplify_eq; try done;
      (apply tasksValid_insert; [done|]; by eapply Task_create_valid).
  - (* updateTask *)
    unfold TaskController.updateTask. repeat case_match; try done; found;
      (apply tasksValid_insert; [done|];
       eapply Task_update_valid; [|eassumption]; by eapply (Hs _)).
  - (* deleteTask *)
    unfold TaskController.deleteTask. repeat case_match; try done.
    unfold tasksValid. simpl. by apply map_Forall_delete.
  - (* updateTaskStatus *)
    unfold TaskController.updateTaskStatus. repeat case_match; try done; found;
      (apply tasksValid_insert; [done|];
       match goal with
       | Ht : tasks s !! _ = Some ?t, Hc : _ ≫= castEnum statusEnum = Some _ |- _ =>
           destruct (Hs _ _ Ht) as (_ & Hpri & Hti);
           apply bind_Some in Hc as (v & _ & Hc); apply castEnum_Some in Hc
       end;
       by split).
  - (* addComment *)
    unfold TaskController.addComment. repeat case_match; try done; found;
      (apply tasksValid_insert; [done|];
       match goal with
       | Ht : tasks s !! _ = Some ?t |- _ => exact (Hs _ _ Ht)
       end).
  - (* deleteUser *)
    unfold UserController.deleteUser. repeat case_match; try done.
    intros tid t' Ht'. simpl in Ht'.
    apply lookup_fmap_Some in Ht' as (t & <- & Ht).
    apply map_lookup_filter_Some in Ht as [Ht _].
    pose proof (Hs tid t Ht). by case_match.
Qed.

Lemma sample_tasksValid : tasksValid Sample.store.
Proof.
  unfold tasksValid, Sample.store. simpl. apply map_Forall_singleton.
  unfold taskValid. simpl. split; [|split].
  - apply includes_true. reflexivity.
  - apply includes_true. reflexivity.
  - lia.
Qed.

Lemma handlers_keep_tasks_valid_witness :
  let req := Sample.request Sample.u1 "member" "PUT" (Sample.idParam Sample.t1_id)
               [("title", JStr "ab"); ("priority", JStr "urgent")] in
  (TaskController.updateTask Sample.env Sample.store req).2 = serverError
  ∧ tasksValid (TaskController.updateTask Sample.env Sample.store req).1.
Proof.
  intros req. split; [vm_compute; reflexivity|].
  apply (handlers_keep_tasks_valid Sample.env Sample.store req sample_tasksValid).
Defined.

(** ** Viewing projects *)

Lemma somePopulatedMember_resolved (us : gmap string User) (uid : ObjectId)
    (ms : list Member) :
  Forall (fun m => is_Some (us !! m_user m)) ms →
  somePopulatedMember us uid ms
  = Some (existsb (fun m => String.eqb (m_user m) uid) ms).
Proof.
  induction 1 as [|m ms [u Hu] _ IH]; [done|]. simpl. rewrite Hu.
  destruct (String.eqb (m_user m) uid); [done|]. by rewrite IH.
Qed.

(** X16. For an existing project whose owner and members are existing
    users, [getProject] answers 200 with the project and its statistics
    exactly when the actor is the owner, a member of any role or a global
    admin, and 403 without data otherwise. *)
Theorem getProject_access
    (env : Env) (s : Store) (req : Request) (pid : ObjectId) (P : Project) :
  findById (projects s) (params_id (params req)) = Doc pid P →
  is_Some (users s !! p_owner P) →
  Forall (fun m => is_Some (users s !! m_user m)) (p_members P) →
  (p_owner P = user_id (user req) ∨ user_id (user req) ∈ memberUsers P
   ∨ user_role (user req) = "admin" →
   ∃ st, ProjectViews.getProject env s req = (okData, Some (P, st)))
  ∧ (¬ (p_owner P = user_id (user req) ∨ user_id (user req) ∈ memberUsers P
        ∨ user_role (user req) = "admin") →
     ProjectViews.getProject env s req
     = (fail 403 "Not authorized to access this project", None)).
Proof.
  intros HP [o Ho] Hms. unfold ProjectViews.getProject.
  rewrite HP, Ho, (somePopulatedMember_resolved _ _ _ Hms).
  fold (someMember (user_id (user req)) P).
  destruct (String.eqb_spec (p_owner P) (user_id (user req))) as [Hown|Hown];
    [split; [eauto | tauto]|].
  destruct (someMember (user_id (user req)) P) eqn:Hmem.
  { apply someMember_true in Hmem. split; [eauto | tauto]. }
  apply someMember_false in Hmem.
  destruct (String.eqb_spec (user_role (user req)) "admin") as [Hadm|Hadm];
    [split; [eauto | tauto]|].
  split; [|done]. intros [?|[?|?]]; done.
Qed.

Lemma getProject_access_witness :
  (∃ st, ProjectViews.getProject Sample.env Sample.store
           (Sample.request Sample.u3 "manager" "GET" (Sample.idParam Sample.p1_id) [])
         = (okData, Some (Sample.p1, st)))
  ∧ ProjectViews.getProject Sample.env Sample.store
      (Sample.request Sample.u4 "manager" "GET" (Sample.idParam Sample.p1_id) [])
    = (fail 403 "Not authorized to access this project", None).
Proof.
  assert (is_Some (users Sample.store !! p_owner Sample.p1)) as Ho
    by (eexists; reflexivity).
  assert (Forall (fun m => is_Some (users Sample.store !! m_user m))
            (p_members Sample.p1)) as Hms
    by (repeat constructor; eexists; reflexivity).
  split.
  - apply (proj1 (getProject_access Sample.env Sample.store
                    (Sample.request Sample.u3 "manager" "GET"
                       (Sample.idParam Sample.p1_id) [])
                    Sample.p1_id Sample.p1 ltac:(vm_compute; reflexivity) Ho Hms)).
    right. left. change (memberUsers Sample.p1) with [Sample.u2; Sample.u3].
    apply list_elem_of_further, list_elem_of_here.
  - apply (proj2 (getProject_access Sample.env Sample.store
                    (Sample.request Sample.u4 "manager" "GET"
                       (Sample.idParam Sample.p1_id) [])
                    Sample.p1_id Sample.p1 ltac:(vm_compute; reflexivity) Ho Hms)).
    change (memberUsers Sample.p1) with [Sample.u2; Sample.u3].
    rewrite !elem_of_cons, elem_of_nil.
    intros [?|[[?|[?|[]]]|?]]; discriminate.
Defined.

(** ** Statistics *)

Lemma status_cases (t : Task) :
  t_status t ∈ statusEnum →
  t_status t = "todo" ∨ t_status t = "inprogress" ∨ t_status t = "review"
  ∨ t_status t = "done".
Proof.
  unfold statusEnum. rewrite !elem_of_cons, elem_of_nil. tauto.
Qed.

Lemma taskStats_sum (env : Env) (ts : list Task) :
  Forall taskValid ts →
  st_total (taskStats env ts)
  = st_todo (taskStats env ts) + st_inprogress (taskStats env ts)
    + st_review (taskStats env ts) + st_done (taskStats env ts)
  ∧ (st_overdue (taskStats env ts) + st_done (taskStats env ts)
     ≤ st_total (taskStats env ts))%nat.
Proof.
  unfold taskStats, countStatus. simpl.
  induction 1 as [|t ts (Hst & _) _ [IH1 IH2]]; [done|].
  apply status_cases in Hst. simpl. unfold isOverdue at 1.
  destruct Hst as [Hs|[Hs|[Hs|Hs]]]; rewrite Hs; simpl;
    destruct (t_dueDate t) as [d|]; try destruct (Z.ltb d (now env));
    simpl; lia.
Qed.

(** X17. When every stored task satisfies the schema, the statistics that
    [getProject] and [getTasks] return add up: the total is the sum of the
    four status counts, and overdue tasks are never counted among the done
    ones. *)
Theorem stats_add_up
    (regex : string → option (string → bool)) (env : Env) (s : Store)
    (req : Request) (q : TaskViews.Query) :
  tasksValid s →
  let consistent (st : Stats) :=
    st_total st = st_todo st + st_inprogress st + st_review st + st_done st
    ∧ (st_overdue st + st_done st ≤ st_total st)%nat in
  (∀ r P st, ProjectViews.getProject env s req = (r, Some (P, st)) → consistent st)
  ∧ (∀ r ts st, TaskViews.getTasks regex env s req q = (r, Some (ts, st)) →
                consistent st).
Proof.
  intros Hs. simpl.
  assert (∀ (Q : string * Task → Prop) `{!∀ x, Decision (Q x)},
            Forall taskValid (map_to_list (filter Q (tasks s))).*2) as Hvalid.
  { intros Q ?. apply Forall_forall. intros t Ht.
    apply list_elem_of_fmap in Ht as ([tid t'] & -> & Hin).
    apply elem_of_map_to_list, map_lookup_filter_Some in Hin as [Hin _].
    by apply (Hs tid). }
  split.
  - intros r P st. unfold ProjectViews.getProject.
    repeat case_match; intros; simplify_eq; apply taskStats_sum, Hvalid.
  - intros r ts st. unfold TaskViews.getTasks.
    repeat case_match; intros; simplify_eq; apply taskStats_sum, Hvalid.
Qed.

Lemma stats_add_up_witness :
  let req := Sample.request Sample.u1 "member" "GET" (Sample.idParam Sample.p1_id) [] in
  ∃ st, (ProjectViews.getProject Sample.env Sample.store req).2 = Some (Sample.p1, st)
        ∧ st_total st = st_todo st + st_inprogress st + st_review st + st_done st.
Proof.
  intros req.
  destruct (ProjectViews.getProject Sample.env Sample.store req)
    as [r [[P st]|]] eqn:Hget.
  - exists st.
    assert (P = Sample.p1) as ->.
    { vm_compute in Hget. by injection Hget as _ <- _. }
    split; [reflexivity|].
    apply (proj1 (stats_add_up (fun _ => None) Sample.env Sample.store req
                    (TaskViews.mkQuery None None None None None)
                    sample_tasksValid) r Sample.p1 st Hget).
  - vm_compute in Hget. discriminate Hget.
Defined.

(** ** Listing tasks and projects *)

(** What a list that [getTasks] returned holds: stored tasks of existing
    projects whose JSON form did not throw. *)
Lemma getTasks_result
    (regex : string → option (string → bool)) (env : Env) (s : Store)
    (req : Request) (q : TaskViews.Query) (r : Response)
    (ts : list (ObjectId * Task)) (st : Stats) :
  TaskViews.getTasks regex env s req q = (r, Some (ts, st)) →
  r = okData ∧ st = taskStats env ts.*2
  ∧ Forall (fun kt : ObjectId * Task =>
              tasks s !! kt.1 = Some kt.2
              ∧ is_Some (projects s !! t_project kt.2)
              ∧ is_Some (taskJSON ["name"] (projects s) kt.2)) ts.
Proof.
  unfold TaskViews.getTasks. cbv zeta. intros H.
  inv_match H Hscope; [refused|].
  inv_match H Hass; [|refused].
  inv_match H Hre; [|refused].
  inv_match H Hall; [|refused].
  injection H as <- <- <-. split; [done|]. split; [done|].
  apply Forall_forall. intros [tid t] Hin.
  rewrite forallb_forall in Hall.
  pose proof (Hall (tid, t) (proj1 (list_elem_of_In _ _) Hin)) as Hjson.
  apply bool_decide_eq_true in Hjson.
  apply elem_of_map_to_list, map_lookup_filter_Some in Hin as [Ht Hok].
  simpl in *. split; [done|]. split; [|done].
  repeat (apply andb_true_iff in Hok as [Hok _]).
  destruct (TaskViews.given (TaskViews.q_project q)) as [project|].
  - destruct (findById (projects s) (Some project)) as [| |pid P] eqn:HP;
      [done|done|].
    apply findById_Doc in HP as [_ HP].
    destruct (negb _); [done|]. injection Hscope as <-.
    apply String.eqb_eq in Hok. subst pid. by eexists.
  - injection Hscope as <-.
    destruct (projects s !! t_project t); [by eexists | done].
Qed.

(** X18. [getTasks] answers with data only when no task matches the query:
    the list it returns is empty and its statistics are zero.  A task that
    matches sends the response to the [catch], because its populated
    project has no JSON form: with no filter in the query, an actor who
    owns or is a member of a project that has a task is answered 500. *)
Theorem getTasks_breaks_on_any_task
    (regex : string → option (string → bool)) (env : Env) (s : Store)
    (req : Request) (q : TaskViews.Query) :
  (∀ r ts st, TaskViews.getTasks regex env s req q = (r, Some (ts, st)) →
              r = okData ∧ ts = [] ∧ st = mkStats 0 0 0 0 0 0)
  ∧ (∀ tid t P,
       q = TaskViews.mkQuery None None None None None →
       tasks s !! tid = Some t →
       projects s !! t_project t = Some P →
       p_owner P = user_id (user req) ∨ user_id (user req) ∈ memberUsers P →
       TaskViews.getTasks regex env s req q = (serverError, None)).
Proof.
  split.
  - intros r ts st H.
    apply getTasks_result in H as (-> & -> & Hall).
    destruct ts as [|[tid t] ts]; [done|].
    apply Forall_cons in Hall as [(_ & [P HP] & [j Hj]) _]. simpl in *.
    by rewrite (taskJSON_throws ["name"] (projects s) t P) in Hj.
  - intros tid t P -> Ht HP Hacc.
    unfold TaskViews.getTasks. simpl.
    match goal with
    | |- (if forallb ?f ?l then _ else _) = _ => destruct (forallb f l) eqn:Hall
    end; [|done].
    exfalso. rewrite forallb_forall in Hall.
    assert (bool_decide (is_Some (taskJSON ["name"] (projects s) t)) = true)
      as Hjson.
    { apply (Hall (tid, t)). apply list_elem_of_In, elem_of_map_to_list.
      apply map_lookup_filter_Some. split; [done|]. simpl. rewrite HP.
      destruct Hacc as [->|Hmem].
      - by rewrite String.eqb_refl.
      - apply someMember_true in Hmem. rewrite Hmem. by rewrite orb_true_r. }
    apply bool_decide_eq_true in Hjson as [j Hj].
    by rewrite (taskJSON_throws ["name"] (projects s) t P) in Hj.
Qed.

Lemma getTasks_breaks_on_any_task_witness :
  let q := TaskViews.mkQuery None None None None None in
  TaskViews.getTasks (fun _ => None) Sample.env Sample.store
    (Sample.request Sample.u2 "member" "GET" Sample.noParams []) q
  = (serverError, None)
  ∧ (TaskViews.getTasks (fun _ => None) Sample.env Sample.store
       (Sample.request Sample.a0 "admin" "GET" Sample.noParams []) q).2
    = Some ([], mkStats 0 0 0 0 0 0).
Proof.
  intros q. split.
  - apply (proj2 (getTasks_breaks_on_any_task (fun _ => None) Sample.env
                    Sample.store
                    (Sample.request Sample.u2 "member" "GET" Sample.noParams []) q)
             Sample.t1_id Sample.t1 Sample.p1 eq_refl eq_refl eq_refl).
    right. change (memberUsers Sample.p1) with [Sample.u2; Sample.u3].
    apply list_elem_of_here.
  - destruct (TaskViews.getTasks (fun _ => None) Sample.env Sample.store
                (Sample.request Sample.a0 "admin" "GET" Sample.noParams []) q)
      as [r [[ts st]|]] eqn:Hget.
    + destruct (proj1 (getTasks_breaks_on_any_task (fun _ => None) Sample.env
                         Sample.store
                         (Sample.request Sample.a0 "admin" "GET" Sample.noParams [])
                         q) r ts st Hget) as (_ & -> & ->).
      reflexivity.
    + vm_compute in Hget. discriminate Hget.
Defined.

(** X19. [getProjects] lists exactly the projects the actor may view: a
    stored project appears in the list, with its two task counts, if and
    only if the actor is a global admin, its owner or one of its members. *)
Theorem getProjects_visible (s : Store) (req : Request) (pid : ObjectId) (P : Project) :
  ProjectViews.mkProjectWithStats pid P (ProjectViews.taskCount s pid)
    (ProjectViews.completedCount s pid)
    ∈ (ProjectViews.getProjects s req).2
  ↔ projects s !! pid = Some P
    ∧ (user_role (user req) = "admin" ∨ p_owner P = user_id (user req)
       ∨ user_id (user req) ∈ memberUsers P).
Proof.
  unfold ProjectViews.getProjects. simpl. rewrite list_elem_of_fmap.
  destruct (String.eqb_spec (user_role (user req)) "admin") as [Hadm|Hadm].
  - split.
    + intros ([k p] & [= -> ->] & Hin). apply elem_of_map_to_list in Hin. auto.
    + intros [HP _]. exists (pid, P). split; [done|]. by apply elem_of_map_to_list.
  - split.
    + intros ([k p] & [= -> ->] & Hin).
      apply elem_of_map_to_list, map_lookup_filter_Some in Hin as [HP Hacc].
      simpl in Hacc. split; [done|]. right.
      destruct Hacc as [?|Hm]; [by left|]. right. by apply someMember_true.
    + intros [HP [?|Hacc]]; [done|]. exists (pid, P). split; [done|].
      apply elem_of_map_to_list, map_lookup_filter_Some. split; [done|]. simpl.
      destruct Hacc as [?|Hm]; [by left|]. right. by apply someMember_true.
Qed.

(** ** Reading and deleting a task *)

(** X20. [getTask] never answers with a task.  A request for a task that
    does not exist is answered 404 and an actor without access to the
    project 403; an actor who may read an existing task (the owner of its
    project, a member of it or a global admin) is answered 500, because the
    project of the task, populated with [name] and [description] only, has
    no JSON form. *)
Theorem getTask_never_answers (s : Store) (req : Request) :
  (TaskViews.getTask s req).2 = None
  ∧ success (TaskViews.getTask s req).1 = false
  ∧ (∀ tid t P,
       findById (tasks s) (params_id (params req)) = Doc tid t →
       projects s !! t_project t = Some P →
       p_owner P = user_id (user req) ∨ user_id (user req) ∈ memberUsers P
       ∨ user_role (user req) = "admin" →
       TaskViews.getTask s req = (serverError, None)).
Proof.
  unfold TaskViews.getTask.
  destruct (findById (tasks s) (params_id (params req))) as [| |tid t] eqn:Ht;
    [by split_and! ..|].
  destruct (projects s !! t_project t) as [P|] eqn:HP; [|by split_and!].
  rewrite (taskJSON_throws ["name"; "description"] (projects s) t P) by done.
  split_and!; [by case_match | by case_match |].
  intros tid' t' P' [= <- <-] HP' Hacc.
  assert (P' = P) as -> by congruence.
  assert (String.eqb (p_owner P) (user_id (user req))
          || someMember (user_id (user req)) P
          || String.eqb (user_role (user req)) "admin" = true) as ->; [|done].
  destruct Hacc as [->|[Hmem| ->]].
  - by rewrite String.eqb_refl.
  - apply someMember_true in Hmem. rewrite Hmem. by rewrite orb_true_r.
  - apply orb_true_r.
Qed.

Lemma getTask_never_answers_witness :
  TaskViews.getTask Sample.store
    (Sample.request Sample.u1 "member" "GET" (Sample.idParam Sample.t1_id) [])
  = (serverError, None).
Proof.
  apply (proj2 (proj2 (getTask_never_answers Sample.store
                         (Sample.request Sample.u1 "member" "GET"
                            (Sample.idParam Sample.t1_id) [])))
           Sample.t1_id Sample.t1 Sample.p1);
    [vm_compute; reflexivity | reflexivity | left; reflexivity].
Defined.

(** X21. A successful [deleteTask] removes exactly the named task, and
    afterwards reading, updating or deleting that identifier is answered 404
    "Task not found" for every actor. *)
Theorem deleteTask_then_not_found
    (env : Env) (s s' : Store) (req req' : Request) (r : Response) (tid : ObjectId) :
  TaskRoutes.delete_task s req = (s', r) →
  success r = true →
  routeId req = Some tid →
  routeId req' = Some tid →
  is_Some (tasks s !! tid)
  ∧ tasks s' = delete tid (tasks s)
  ∧ users s' = users s ∧ projects s' = projects s
  ∧ TaskViews.getTask s' req' = (fail 404 "Task not found", None)
  ∧ TaskController.updateTask env s' req' = (s', fail 404 "Task not found")
  ∧ TaskController.deleteTask s' req' = (s', fail 404 "Task not found").
Proof.
  unfold TaskRoutes.delete_task, TaskRoutes.route, TaskController.deleteTask.
  intros H Hr Hid Hid'.
  destruct (findById (tasks s) (params_id (params req)))
    as [| |tid0 t] eqn:Ht; [refused|refused|].
  apply findById_Doc in Ht as [Hid0 Ht].
  assert (tid0 = tid) as -> by (unfold routeId in Hid; congruence).
  destruct (projects s !! t_project t); [|refused].
  destruct (negb _ && negb _); [refused|].
  injection H as <- <-. simpl.
  split; [by eexists|]. split; [done|]. split; [done|]. split; [done|].
  assert (findById (delete tid (tasks s)) (params_id (params req')) = Missing)
    as Hgone.
  { pose proof (findById_cases (delete tid (tasks s)) (params_id (params req')))
      as Hc.
    destruct (findById _ _) as [| |i d]; [| done |].
    - destruct Hc as (raw & Hraw & Hcast). unfold routeId in Hid'.
      rewrite Hraw in Hid'. simpl in Hid'. congruence.
    - destruct Hc as [Hi Hd]. unfold routeId in Hid'.
      assert (i = tid) as -> by congruence. by rewrite lookup_delete_eq in Hd. }
  unfold TaskViews.getTask, TaskController.updateTask. simpl. by rewrite Hgone.
Qed.

Lemma deleteTask_then_not_found_witness :
  let req := Sample.request Sample.u1 "member" "DELETE" (Sample.idParam Sample.t1_id) [] in
  let out := TaskRoutes.delete_task Sample.store req in
  out.2 = ok 200 "Task deleted successfully"
  ∧ TaskViews.getTask out.1 req = (fail 404 "Task not found", None).
Proof.
  intros req out. split; [vm_compute; reflexivity|].
  apply (deleteTask_then_not_found Sample.env Sample.store out.1 req req out.2
           Sample.t1_id (surjective_pairing out) ltac:(vm_compute; reflexivity)
           ltac:(vm_compute; reflexivity) ltac:(vm_compute; reflexivity)).
Defined.

(** ** User management *)

(** X22. User management is for global admins only: every other actor gets
    403 "Admin access required" from [updateUserRole], [updateUserStatus],
    [deleteUser] and [getUsers], before the body and the target are looked
    at, and the store is unchanged. *)
Theorem user_management_admin_only (s : Store) (req : Request) :
  user_role (user req) ≠ "admin" →
  UserController.updateUserRole s req = (s, fail 403 "Admin access required")
  ∧ UserController.updateUserStatus s req = (s, fail 403 "Admin access required")
  ∧ UserController.deleteUser s req = (s, fail 403 "Admin access required")
  ∧ UserViews.getUsers s req = (fail 403 "Admin access required", None).
Proof.
  intros Hrole.
  unfold UserController.updateUserRole, UserController.updateUserStatus,
    UserController.deleteUser, UserViews.getUsers.
  by rewrite (eqb_false_of_ne _ _ Hrole).
Qed.

Lemma user_management_admin_only_witness :
  let req := Sample.request Sample.u3 "manager" "PUT" (Sample.idParam Sample.u2)
               [("role", JStr "admin"); ("isActive", JBool false)] in
  UserController.updateUserRole Sample.store req
    = (Sample.store, fail 403 "Admin access required")
  ∧ UserController.updateUserStatus Sample.store req
    = (Sample.store, fail 403 "Admin access required")
  ∧ UserController.deleteUser Sample.store req
    = (Sample.store, fail 403 "Admin access required")
  ∧ UserViews.getUsers Sample.store req = (fail 403 "Admin access required", None).
Proof.
  apply (user_management_admin_only Sample.store
           (Sample.request Sample.u3 "manager" "PUT" (Sample.idParam Sample.u2)
              [("role", JStr "admin"); ("isActive", JBool false)])).
  discriminate.
Defined.

(** X23. The account of the actor survives every user-management request
    in which the route, when it names the actor's own account, names it in
    the spelling of [req.user.id]: after [updateUserRole],
    [updateUserStatus] or [deleteUser] it still exists with the same global
    role, and if it was active it still is. *)
Theorem acting_account_survives (s : Store) (req : Request) (u : User) :
  users s !! user_id (user req) = Some u →
  (routeId req = Some (user_id (user req)) →
   params_id (params req) = Some (user_id (user req))) →
  let survives (out : Store * Response) :=
    ∃ u', users out.1 !! user_id (user req) = Some u'
          ∧ u_role u' = u_role u
          ∧ (u_isActive u = true → u_isActive u' = true) in
  survives (UserController.updateUserRole s req)
  ∧ survives (UserController.updateUserStatus s req)
  ∧ survives (UserController.deleteUser s req).
Proof.
  intros Hu Hspell. simpl.
  assert (∃ u', users s !! user_id (user req) = Some u' ∧ u_role u' = u_role u
                ∧ (u_isActive u = true → u_isActive u' = true)) as Hsame
    by (by exists u).
  assert (∀ uid, routeId req = Some uid →
                 eqParam (user_id (user req)) (params_id (params req)) = false →
                 uid ≠ user_id (user req)) as Hother.
  { intros uid Hid Hself ->. rewrite (Hspell Hid) in Hself. simpl in Hself.
    by rewrite String.eqb_refl in Hself. }
  split_and!.
  - unfold UserController.updateUserRole.
    destruct (negb _); [done|]. destruct (negb _); [done|].
    destruct (findById (users s) (params_id (params req)))
      as [| |uid u0] eqn:Huid; [done|done|].
    apply findById_Doc in Huid as [Hid Huid].
    destruct (eqParam _ _) eqn:Hself; [done|].
    destruct (_ ≫= castString); [|done]. simpl.
    rewrite lookup_insert_ne; [done|]. by apply Hother.
  - unfold UserController.updateUserStatus.
    destruct (negb _); [done|].
    destruct (get "isActive" (body req)) as [[|isActive| | | |]|]; try done.
    destruct (findById (users s) (params_id (params req)))
      as [| |uid u0] eqn:Huid; [done|done|].
    apply findById_Doc in Huid as [Hid Huid].
    destruct (eqParam _ _) eqn:Hself; simpl.
    + destruct isActive; simpl; [|done].
      destruct (decide (uid = user_id (user req))) as [->|Hne].
      * rewrite lookup_insert_eq. eexists. split; [done|]. simpl.
        split; [congruence | done].
      * by rewrite lookup_insert_ne.
    + rewrite lookup_insert_ne; [done|]. by apply Hother.
  - unfold UserController.deleteUser.
    destruct (negb _); [done|].
    destruct (findById (users s) (params_id (params req)))
      as [| |uid u0] eqn:Huid; [done|done|].
    apply findById_Doc in Huid as [Hid Huid].
    destruct (eqParam _ _) eqn:Hself; [done|]. simpl.
    rewrite lookup_delete_ne; [done|]. by apply Hother.
Qed.

Lemma acting_account_survives_witness :
  let req := Sample.request Sample.a0 "admin" "PUT" (Sample.idParam Sample.a0)
               [("isActive", JBool true)] in
  ∃ u', users (UserController.updateUserStatus Sample.store req).1 !! Sample.a0
        = Some u'
        ∧ u_role u' = "admin" ∧ u_isActive u' = true.
Proof.
  intros req.
  destruct (proj1 (proj2 (acting_account_survives Sample.store req
                            (mkUser "Admin User" "admin@example.com" "admin" true)
                            eq_refl (fun _ => eq_refl))))
    as (u' & Hu' & Hrole & Hact).
  exists u'. split; [exact Hu'|]. split; [exact Hrole | exact (Hact eq_refl)].
Defined.

(** X24. A successful [deleteUser] removes the user and every reference that
    gives the user a part in a project: no project is owned by the user, the
    user is on no roster and no task is assigned to the user.  Tasks that
    stay keep their creator and comments, also those of the deleted user. *)
Theorem deleteUser_cascade
    (s s' : Store) (req : Request) (r : Response) (uid : ObjectId) :
  UserController.deleteUser s req = (s', r) →
  success r = true →
  routeId req = Some uid →
  users s' = delete uid (users s)
  ∧ (∀ pid p, projects s' !! pid = Some p →
              p_owner p ≠ uid ∧ uid ∉ memberUsers p)
  ∧ (∀ tid t', tasks s' !! tid = Some t' →
               t_assignee t' ≠ Some uid
               ∧ ∃ t, tasks s !! tid = Some t
                      ∧ t_createdBy t' = t_createdBy t
                      ∧ t_comments t' = t_comments t).
Proof.
  intros Hdel Hr Hid.
  apply deleteUser_success in Hdel as (uid' & Hid' & _ & _ & _ & Hus & Hps & Hts);
    [|done].
  assert (uid' = uid) as -> by congruence.
  split; [done|]. split.
  - intros pid p' Hp'. rewrite Hps in Hp'.
    apply lookup_fmap_Some in Hp' as (p & <- & Hp).
    apply map_lookup_filter_Some in Hp as [_ Hown]. simpl in *. split; [done|].
    unfold memberUsers. simpl.
    pose proof (filter_removes_member uid (p_members p)) as Hgone. exact Hgone.
  - intros tid t' Ht'. rewrite Hts in Ht'.
    apply lookup_fmap_Some in Ht' as (t & <- & Ht).
    apply map_lookup_filter_Some in Ht as [Ht _].
    unfold assigneeIs. destruct (t_assignee t) as [a|] eqn:Ha.
    + destruct (String.eqb_spec a uid) as [->|Hne]; simpl.
      * split; [done|]. by exists t.
      * rewrite Ha. split; [congruence|]. by exists t.
    + rewrite Ha. split; [done|]. by exists t.
Qed.

Lemma deleteUser_cascade_witness :
  let req := Sample.request Sample.a0 "admin" "DELETE" (Sample.idParam Sample.u2) [] in
  let out := UserController.deleteUser Sample.store req in
  users out.1 !! Sample.u2 = None
  ∧ ∃ t', tasks out.1 !! Sample.t1_id = Some t' ∧ t_createdBy t' = Sample.u2.
Proof.
  intros req out.
  destruct (deleteUser_cascade Sample.store out.1 req out.2 Sample.u2
              (surjective_pairing out) ltac:(vm_compute; reflexivity)
              ltac:(vm_compute; reflexivity))
    as (Hus & _ & Hts).
  split; [rewrite Hus; apply lookup_delete_eq|].
  destruct (tasks out.1 !! Sample.t1_id) as [t'|] eqn:Ht'.
  - exists t'. split; [reflexivity|].
    destruct (Hts _ _ Ht') as (_ & t & Ht & Hcb & _).
    rewrite Hcb. vm_compute in Ht. by injection Ht as <-.
  - vm_compute in Ht'. discriminate Ht'.
Defined.

(** ** The permission middleware *)








(** ** The kanban board *)

(** X28. When every task of the board has one of the four workflow states,
    the four columns together hold every task exactly once (they are a
    rearrangement of the task list); a task with any other status is in no
    column. *)
Theorem kanban_columns_partition (tasks : list (ObjectId * Task)) :
  (Forall (fun task => t_status task.2 ∈ statusEnum) tasks →
   concat (KanbanBoard.getTasksByColumn tasks <$> KanbanBoard.columns) ≡ₚ tasks)
  ∧ (∀ task c, t_status task.2 ∉ KanbanBoard.columns → c ∈ KanbanBoard.columns →
               task ∉ KanbanBoard.getTasksByColumn tasks c).
Proof.
  split.
  - unfold KanbanBoard.columns, KanbanBoard.getTasksByColumn. simpl.
    induction 1 as [|[tid t] ts Hst _ IH]; [done|].
    simpl in Hst. apply status_cases in Hst. simpl.
    destruct Hst as [Hs|[Hs|[Hs|Hs]]]; rewrite Hs; simpl;
      rewrite <- ?Permutation_middle; by rewrite IH.
  - intros task c Hout Hc Hin. unfold KanbanBoard.getTasksByColumn in Hin.
    apply list_elem_of_In, filter_In in Hin as [_ Heq].
    apply String.eqb_eq in Heq. congruence.
Qed.

Lemma kanban_columns_partition_witness :
  let board := [(Sample.t1_id, Sample.t1);
                (Sample.n1, withStatus Sample.t1 "todo");
                (Sample.missing, withStatus Sample.t1 "done")] in
  concat (KanbanBoard.getTasksByColumn board <$> KanbanBoard.columns) ≡ₚ board.
Proof.
  intros board. apply (proj1 (kanban_columns_partition board)).
  repeat constructor; apply includes_true; reflexivity.
Defined.

(** What [PUT /api/tasks/:id] does with the body [{ status }] that the board
    sends. *)
Lemma updateTask_status_only (env : Env) (s : Store) (actor : AuthUser)
    (raw : string) (st : string) :
  st ≠ "" →
  let out :=
    TaskRoutes.put_task env s
      (mkRequest actor "PUT" (mkParams (Some raw) None None None)
         [("status", JStr st)] []) in
  (out.1 = s ∧ (status out.2 = 403 ∨ status out.2 = 404 ∨ status out.2 = 500))
  ∨ ∃ tid t, castId raw = Some tid ∧ tasks s !! tid = Some t
             ∧ out = (setTasks s (<[tid := withStatus t st]> (tasks s)),
                      ok 200 "Task updated successfully").
Proof.
  intros Hne. cbv zeta.
  unfold TaskRoutes.put_task, TaskRoutes.route, TaskController.updateTask.
  simpl.
  destruct (findById (tasks s) (Some raw)) as [| |tid t] eqn:Ht;
    [left; auto | left; auto |].
  apply findById_Doc in Ht as [Hid Ht]. simpl in Hid.
  destruct (projects s !! t_project t) as [P|]; [|left; auto].
  unfold truthy. rewrite (eqb_false_of_ne _ _ Hne).
  unfold Task_update, castEnum. simpl.
  match goal with |- context [check ?b] => destruct b end;
    destruct (String.eqb (p_owner P) (user_id actor)),
      (assigneeIs t (user_id actor)), (String.eqb (user_role actor) "admin");
    simpl;
    first [ left; split; [reflexivity | by auto] | right; by exists tid, t ].
Qed.

(** X29. Dragging a card keeps the board in step with the backend: if every
    task of the board is the stored task of its identifier and the dragged
    identifier is in the spelling of the store (or is no identifier at
    all), then after [handleDragEnd] (with a non-empty drop target, or none)
    this is still so for the store and the board that result, whether the
    backend accepted the move or refused it; the board keeps its length and
    order of identifiers. *)
Theorem handleDragEnd_in_sync
    (env : Env) (s : Store) (actor : AuthUser) (active : ObjectId)
    (over : option string) (board : list (ObjectId * Task)) :
  Forall (fun task => tasks s !! task.1 = Some task.2) board →
  (∀ i, castId active = Some i → i = active) →
  over ≠ Some "" →
  let out := KanbanBoard.handleDragEnd env s actor active over board in
  Forall (fun task => tasks out.1 !! task.1 = Some task.2) out.2
  ∧ out.2.*1 = board.*1.
Proof.
  intros Hsync Hcanon Hover. unfold KanbanBoard.handleDragEnd.
  destruct over as [st|]; [|done].
  assert (st ≠ "") as Hne by congruence.
  destruct (updateTask_status_only env s actor active st Hne)
    as [[Hs Hst]|(tid & t & Hid & Ht & Hout)].
  - assert ((200 <=? status (TaskRoutes.put_task env s
               (mkRequest actor "PUT" (mkParams (Some active) None None None)
                  [("status", JStr st)] [])).2)%nat
            && (status (TaskRoutes.put_task env s
                  (mkRequest actor "PUT" (mkParams (Some active) None None None)
                     [("status", JStr st)] [])).2 <? 300)%nat = false) as ->.
    { destruct Hst as [-> | [-> | ->]]; reflexivity. }
    simpl. by rewrite Hs.
  - apply Hcanon in Hid as ->. rewrite Hout. simpl. split.
    + unfold KanbanBoard.moveTask. apply Forall_forall. intros task Hin.
      apply list_elem_of_In, in_map_iff in Hin as ([tid' t'] & <- & Hin).
      apply list_elem_of_In in Hin.
      pose proof (proj1 (Forall_forall _ _) Hsync _ Hin) as Hmirror.
      simpl in *. destruct (String.eqb_spec tid' active) as [->|Hneq]; simpl.
      * rewrite lookup_insert_eq. congruence.
      * by rewrite lookup_insert_ne.
    + unfold KanbanBoard.moveTask. clear. induction board as [|[tid t'] b IH]; [done|].
      simpl. destruct (String.eqb tid active); simpl; f_equal; exact IH.
Qed.

Lemma handleDragEnd_in_sync_witness :
  let board := [(Sample.t1_id, Sample.t1)] in
  let moved := KanbanBoard.handleDragEnd Sample.env Sample.store
                 (mkAuthUser Sample.u1 "member") Sample.t1_id (Some "done") board in
  let refused := KanbanBoard.handleDragEnd Sample.env Sample.store
                   (mkAuthUser Sample.u3 "manager") Sample.t1_id (Some "done") board in
  moved.2 = [(Sample.t1_id, withStatus Sample.t1 "done")]
  ∧ refused = (Sample.store, board)
  ∧ Forall (fun task => tasks moved.1 !! task.1 = Some task.2) moved.2.
Proof.
  intros board moved refused.
  split; [vm_compute; reflexivity|]. split; [vm_compute; reflexivity|].
  apply (handleDragEnd_in_sync Sample.env Sample.store
           (mkAuthUser Sample.u1 "member") Sample.t1_id (Some "done") board).
  - repeat constructor.
  - intros i Hi. vm_compute in Hi. by injection Hi as <-.
  - discriminate.
Defined.

(** With the dragged identifier in another spelling the backend moves the
    task and the card stays where it was. *)
Example handleDragEnd_other_spelling :
  let board := [(Sample.t1_id, Sample.t1)] in
  let out := KanbanBoard.handleDragEnd Sample.env Sample.store
               (mkAuthUser Sample.u1 "member") "64F1A2B3C4D5E6F708093C01"
               (Some "done") board in
  (t_status <$> tasks out.1 !! Sample.t1_id) = Some "done"
  ∧ out.2 = board.
Proof. simpl. split; vm_compute; reflexivity. Qed.

(** ** Global roles stay valid *)

(** The handlers of projects and tasks do not write users. *)
Lemma users_untouched (env : Env) (s : Store) (req : Request) :
  users (ProjectController.createProject env s req).1 = users s
  ∧ users (ProjectController.updateProject env s req).1 = users s
  ∧ users (ProjectController.deleteProject s req).1 = users s
  ∧ users (ProjectController.addMember env s req).1 = users s
  ∧ users (ProjectController.removeMember s req).1 = users s
  ∧ users (TaskController.createTask env s req).1 = users s
  ∧ users (TaskController.updateTask env s req).1 = users s
  ∧ users (TaskController.deleteTask s req).1 = users s
  ∧ users (TaskController.updateTaskStatus s req).1 = users s
  ∧ users (TaskController.addComment env s req).1 = users s.
Proof.
  split_and!.
  - unfold ProjectController.createProject. repeat case_match; done.
  - unfold ProjectController.updateProject. repeat case_match; done.
  - unfold ProjectController.deleteProject. repeat case_match; done.
  - unfold ProjectController.addMember. repeat case_match; done.
  - unfold ProjectController.removeMember. repeat case_match; done.
  - unfold TaskController.createTask. repeat case_match; done.
  - unfold TaskController.updateTask. repeat case_match; done.
  - unfold TaskController.deleteTask. repeat case_match; done.
  - unfold TaskController.updateTaskStatus. repeat case_match; done.
  - unfold TaskController.addComment. repeat case_match; done.
Qed.

(** X30. If every user has one of the global roles [admin], [manager],
    [member], so it is after any request to any write handler:
    [updateUserRole] stores a role only after checking it against the three
    names, and no other handler writes a role. *)
Theorem handlers_keep_roles_valid (env : Env) (s : Store) (req : Request) :
  rolesOk s →
  rolesOk (ProjectController.createProject env s req).1
  ∧ rolesOk (ProjectController.updateProject env s req).1
  ∧ rolesOk (ProjectController.deleteProject s req).1
  ∧ rolesOk (ProjectController.addMember env s req).1
  ∧ rolesOk (ProjectController.removeMember s req).1
  ∧ rolesOk (TaskController.createTask env s req).1
  ∧ rolesOk (TaskController.updateTask env s req).1
  ∧ rolesOk (TaskController.deleteTask s req).1
  ∧ rolesOk (TaskController.updateTaskStatus s req).1
  ∧ rolesOk (TaskController.addComment env s req).1
  ∧ rolesOk (UserController.updateUserRole s req).1
  ∧ rolesOk (UserController.updateUserStatus s req).1
  ∧ rolesOk (UserController.deleteUser s req).1.
Proof.
  intros Hs.
  destruct (users_untouched env s req)
    as (H1 & H2 & H3 & H4 & H5 & H6 & H7 & H8 & H9 & H10).
  split_and!;
    try by (unfold rolesOk;
            first [rewrite H1|rewrite H2|rewrite H3|rewrite H4|rewrite H5
                  |rewrite H6|rewrite H7|rewrite H8|rewrite H9|rewrite H10]).
  - unfold UserController.updateUserRole.
    destruct (negb (String.eqb _ _)); [done|].
    destruct (get "role" (body req)) as [[| | |ro| |]|] eqn:Hro; try done.
    unfold includesVal.
    destruct (includes ["admin"; "manager"; "member"] ro) eqn:Hin; [|done].
    repeat case_match; try done. simplify_eq/=.
    unfold rolesOk. simpl. apply map_Forall_insert_2; [|done].
    simpl. by apply includes_true.
  - unfold UserController.updateUserStatus. repeat case_match; try done; found;
      (unfold rolesOk; simpl; apply map_Forall_insert_2; [|done]; simpl;
       match goal with
       | Hu : users s !! _ = Some ?u |- _ => exact (Hs _ _ Hu)
       end).
  - unfold UserController.deleteUser. repeat case_match; try done.
    unfold rolesOk. simpl. by apply map_Forall_delete.
Qed.

Lemma sample_rolesOk : rolesOk Sample.store.
Proof.
  unfold rolesOk, Sample.store. simpl.
  repeat (apply map_Forall_insert_2; [apply includes_true; reflexivity|]).
  apply map_Forall_empty.
Qed.

Lemma handlers_keep_roles_valid_witness :
  let req := Sample.request Sample.a0 "admin" "PUT" (Sample.idParam Sample.u2)
               [("role", JStr "manager")] in
  (u_role <$> users (UserController.updateUserRole Sample.store req).1 !! Sample.u2)
  = Some "manager"
  ∧ rolesOk (UserController.updateUserRole Sample.store req).1.
Proof.
  intros req. split; [vm_compute; reflexivity|].
  apply (handlers_keep_roles_valid Sample.env Sample.store req sample_rolesOk).
Defined.
